(** * FyersVPB: volume-profile breakout strategy

    A shallow embedding of the computation-and-decision core of the
    repository and the verification of its specification:

    - [services/volume_profile_service.py]: [VolumeProfileCalculator]
      (bucketing, POC, value area, volume nodes);
    - [models/trading_models.py]: the dataclasses and the factory helpers;
    - [strategy/volume_profile_strategy.py]: breakout detection, signal
      scoring, position sizing, trailing stops and exits.

    Conventions of the embedding.

    - A Python [float] that holds a price, a ratio or a percentage is an
      exact rational ([Q]); [==] on floats is [Qeq_bool].  Rounding is not
      modelled.  The one non-finite float the program creates itself,
      [float('inf')] in [Position.__post_init__], is kept: the two
      [Position] fields it can flow into have type [pyfloat].
    - A Python [int] is a [Z]; a [datetime] is a [Z] (seconds); the clock
      [datetime.now()] is an explicit argument [now].
    - A [dict] is an insertion-ordered association list ([PyDict]): Python
      iterates a dict in insertion order, and [max] over its items depends
      on that order.
    - A raised exception is [None] in [option]; every [try ... except
      Exception] of the source is the [match] that catches it.
    - A method that mutates [self] takes the state and returns the new one. *)

From Stdlib Require Import List ZArith QArith Qround Qabs String DecimalString Bool Lia Lqa.
From Stdlib Require Import Permutation Sorting.Sorted Sorting.Mergesort Orders.
Import ListNotations.

Local Open Scope Q_scope.
Local Open Scope string_scope.
Local Open Scope list_scope.

(** ** Python built-ins used by the program *)

Notation "x <- e ;; k" := (match e with Some x => k | None => None end)
  (at level 61, e at next level, right associativity, only parsing).

(** Comparisons of floats, as booleans. *)
Definition Qlt_bool (a b : Q) : bool := negb (Qle_bool b a).

(** [int(x)] on a float: truncation toward zero. *)
Definition py_int (x : Q) : Z := Z.quot (Qnum x) (Zpos (Qden x)).

(** [min(a, b)] and [max(a, b)] on floats: the first argument is kept
    unless the second is strictly smaller (larger). *)
Definition py_min2 (a b : Q) : Q := if Qlt_bool b a then b else a.
Definition py_max2 (a b : Q) : Q := if Qlt_bool a b then b else a.

(** [min(xs)] and [max(xs)] over a list; [ValueError] on the empty list. *)
Definition py_min (xs : list Q) : option Q :=
  match xs with
  | [] => None
  | x :: r => Some (fold_left py_min2 r x)
  end.

Definition py_max (xs : list Q) : option Q :=
  match xs with
  | [] => None
  | x :: r => Some (fold_left py_max2 r x)
  end.

(** [max(items, key=f)] with an integer key: the first item, in iteration
    order, whose key is maximal. *)
Definition keep_larger {A : Type} (key : A -> Z) (best x : A) : A :=
  if (key best <? key x)%Z then x else best.

Definition py_max_by {A : Type} (key : A -> Z) (xs : list A) : option A :=
  match xs with
  | [] => None
  | x :: r => Some (fold_left (keep_larger key) r x)
  end.

(** [sum] of integers. *)
Definition py_sum (xs : list Z) : Z := fold_left Z.add xs 0%Z.

(** [l[i]] for a Python list: a negative index counts from the end,
    [IndexError] outside [-len, len). *)
Definition list_getitem {A : Type} (l : list A) (i : Z) : option A :=
  if (i <? 0)%Z
  then if (i + Z.of_nat (List.length l) <? 0)%Z then None
       else nth_error l (Z.to_nat (i + Z.of_nat (List.length l)))
  else nth_error l (Z.to_nat i).

(** [l[:n]]: a negative bound counts from the end. *)
Definition list_prefix {A : Type} (l : list A) (n : Z) : list A :=
  if (n <? 0)%Z then firstn (Z.to_nat (Z.of_nat (List.length l) + n)) l
  else firstn (Z.to_nat n) l.

(** [l.index(x)] on floats: position of the first element equal to [x],
    [ValueError] when there is none. *)
Fixpoint list_index (l : list Q) (x : Q) : option nat :=
  match l with
  | [] => None
  | y :: r => if Qeq_bool y x then Some O
              else match list_index r x with
                   | Some i => Some (S i)
                   | None => None
                   end
  end.

(** [sorted(xs)] on floats, ascending. *)
Module QOrder <: TotalLeBool.
Definition t := Q.
Definition leb := Qle_bool.
Theorem leb_total : forall a b, leb a b = true \/ leb b a = true.
Proof.
  intros a b. unfold leb. rewrite !Qle_bool_iff.
  destruct (Qlt_le_dec a b) as [H | H]; [left; apply Qlt_le_weak, H | right; exact H].
Qed.
End QOrder.

Module QSort := Sort QOrder.

Definition py_sorted (xs : list Q) : list Q := QSort.sort xs.

(** ** Insertion-ordered dictionaries *)

Module PyDict.
Section Dict.
Context {K V : Type} (keqb : K -> K -> bool).

Definition t := list (K * V).

(** [d.get(k)]. *)
Fixpoint get (d : list (K * V)) (k : K) : option V :=
  match d with
  | [] => None
  | (k', v) :: r => if keqb k' k then Some v else get r k
  end.

(** [k in d]. *)
Definition mem (d : list (K * V)) (k : K) : bool :=
  match get d k with Some _ => true | None => false end.

(** [d[k] = v]: an existing key keeps its place, a new key goes last. *)
Fixpoint set (d : list (K * V)) (k : K) (v : V) : list (K * V) :=
  match d with
  | [] => [(k, v)]
  | (k', v') :: r => if keqb k' k then (k', v) :: r else (k', v') :: set r k v
  end.

(** [del d[k]]. *)
Fixpoint del (d : list (K * V)) (k : K) : list (K * V) :=
  match d with
  | [] => []
  | (k', v') :: r => if keqb k' k then r else (k', v') :: del r k
  end.

Definition keys (d : list (K * V)) : list K := map fst d.
Definition values (d : list (K * V)) : list V := map snd d.

End Dict.
End PyDict.

Definition str_dict (V : Type) := list (string * V).
Definition sget {V : Type} := @PyDict.get string V String.eqb.
Definition smem {V : Type} := @PyDict.mem string V String.eqb.
Definition sset {V : Type} := @PyDict.set string V String.eqb.
Definition sdel {V : Type} := @PyDict.del string V String.eqb.

(** A [defaultdict(int)] keyed by float: [d[k]] reads 0 for an absent key,
    [d[k] += v] adds to the entry or creates it. *)
Definition volume_dict := list (Q * Z).

Definition volume_at (d : volume_dict) (k : Q) : Z :=
  match PyDict.get Qeq_bool d k with Some v => v | None => 0%Z end.

Definition add_volume (d : volume_dict) (k : Q) (v : Z) : volume_dict :=
  PyDict.set Qeq_bool d k (volume_at d k + v)%Z.

(** ** models/trading_models.py and config/settings.py: data *)

Inductive SignalType := LONG | SHORT.

Definition SignalType_eqb (a b : SignalType) : bool :=
  match a, b with
  | LONG, LONG | SHORT, SHORT => true
  | _, _ => false
  end.

Module LiveQuote.
Record t := mk {
  symbol : string;
  ltp : Q;
  open_price : Q;
  high_price : Q;
  low_price : Q;
  volume : Z;
  previous_close : Q;
  timestamp : Z
}.
End LiveQuote.

Module VolumeProfileData.
Record t := mk {
  symbol : string;
  poc : Q;
  vah : Q;
  val : Q;
  profile_high : Q;
  profile_low : Q;
  total_volume : Z;
  value_area_volume : Z;
  volume_by_price : volume_dict;
  price_levels : list Q;
  hvn_levels : list Q;
  lvn_levels : list Q;
  poc_strength : Q;
  profile_width : Q;
  profile_width_pct : Q;
  calculation_time : Z;
  data_start_time : Z;
  data_end_time : Z;
  num_ticks : Z
}.

(** The attributes the dataclass declares. *)
Definition fields : list string :=
  ["symbol"; "poc"; "vah"; "val"; "profile_high"; "profile_low";
   "total_volume"; "value_area_volume"; "volume_by_price"; "price_levels";
   "hvn_levels"; "lvn_levels"; "poc_strength"; "profile_width";
   "profile_width_pct"; "calculation_time"; "data_start_time";
   "data_end_time"; "num_ticks"].
End VolumeProfileData.

(** [hasattr]: whether a dataclass declares an attribute. *)
Definition hasattr (fields : list string) (name : string) : bool :=
  existsb (String.eqb name) fields.

(** ** services/volume_profile_service.py *)

Module VolumeProfileCalculator.

Record t := mk {
  num_price_levels : Z;
  value_area_pct : Q;
  tick_data : str_dict (list LiveQuote.t);
  calculated_profiles : str_dict VolumeProfileData.t
}.

(** [add_tick_data]: [self.tick_data] is a [defaultdict(list)]. *)
Definition add_tick_data (self : t) (symbol : string) (quote : LiveQuote.t) : t :=
  let ticks := match sget (tick_data self) symbol with Some l => l | None => [] end in
  mk (num_price_levels self) (value_area_pct self)
     (sset (tick_data self) symbol (ticks ++ [quote]))
     (calculated_profiles self).

(** [sorted_prices[i]] inside the expansion loop, where every index is
    guarded by a bounds test. *)
Definition price_at (sorted_prices : list Q) (i : nat) : Q := nth i sorted_prices 0.

(** The body of the [while] loop of [_calculate_value_area], iterated.
    [fuel] bounds the number of iterations; [None] means the bound was
    hit (it never is with [fuel = len(sorted_prices)], see
    [expand_total]). *)
Fixpoint expand_value_area (fuel : nat) (volume_by_price : volume_dict)
    (sorted_prices : list Q) (target_volume : Q)
    (upper_idx lower_idx : nat) (accumulated_volume : Z)
    : option (nat * nat * Z) :=
  if Qlt_bool (inject_Z accumulated_volume) target_volume then
    match fuel with
    | O => None
    | S fuel' =>
      let can_up := (upper_idx <? List.length sorted_prices - 1)%nat in
      let can_down := (0 <? lower_idx)%nat in
      let upper_volume :=
        if can_up then volume_at volume_by_price (price_at sorted_prices (upper_idx + 1))
        else 0%Z in
      let lower_volume :=
        if can_down then volume_at volume_by_price (price_at sorted_prices (lower_idx - 1))
        else 0%Z in
      if (lower_volume <=? upper_volume)%Z && can_up then
        expand_value_area fuel' volume_by_price sorted_prices target_volume
          (upper_idx + 1) lower_idx
          (accumulated_volume
           + volume_at volume_by_price (price_at sorted_prices (upper_idx + 1)))%Z
      else if can_down then
        expand_value_area fuel' volume_by_price sorted_prices target_volume
          upper_idx (lower_idx - 1)
          (accumulated_volume
           + volume_at volume_by_price (price_at sorted_prices (lower_idx - 1)))%Z
      else Some (upper_idx, lower_idx, accumulated_volume)
    end
  else Some (upper_idx, lower_idx, accumulated_volume).

(** [_calculate_value_area]: returns [(vah, val, value_area_volume)].
    The [try] block fails only at [sorted_prices.index(poc)]; the handler
    then returns the whole price range, and itself raises [IndexError] on
    an empty dict. *)
Definition _calculate_value_area (self : t) (volume_by_price : volume_dict)
    (poc : Q) (total_volume : Z) : option (Q * Q * Z) :=
  let target_volume := inject_Z total_volume * (value_area_pct self / 100) in
  let sorted_prices := py_sorted (PyDict.keys volume_by_price) in
  let attempt :=
    poc_idx <- list_index sorted_prices poc ;;
    r <- expand_value_area (List.length sorted_prices) volume_by_price
           sorted_prices target_volume poc_idx poc_idx
           (volume_at volume_by_price poc) ;;
    let '(upper_idx, lower_idx, accumulated_volume) := r in
    vah <- nth_error sorted_prices upper_idx ;;
    val <- nth_error sorted_prices lower_idx ;;
    Some (vah, val, accumulated_volume) in
  match attempt with
  | Some r => Some r
  | None =>
    hi <- list_getitem sorted_prices (-1) ;;
    lo <- list_getitem sorted_prices 0 ;;
    Some (hi, lo, total_volume)
  end.

(** The time filter of [calculate_volume_profile]. *)
Definition in_window (start_time end_time : option Z) (tick : LiveQuote.t) : bool :=
  negb (match start_time with
        | Some s => (LiveQuote.timestamp tick <? s)%Z
        | None => false
        end)
  && negb (match end_time with
           | Some e => (e <? LiveQuote.timestamp tick)%Z
           | None => false
           end).

Definition window_ticks (ticks : list LiveQuote.t) (start_time end_time : option Z)
    : list LiveQuote.t :=
  match start_time, end_time with
  | None, None => ticks
  | _, _ => filter (in_window start_time end_time) ticks
  end.

(** One iteration of the bucketing loop. *)
Definition add_tick_to_bucket (self : t) (price_min bucket_size : Q)
    (price_levels : list Q) (volume_by_price : volume_dict)
    (tick : LiveQuote.t) : option volume_dict :=
  let price := LiveQuote.ltp tick in
  let bucket_idx :=
    Z.min (py_int ((price - price_min) / bucket_size)) (num_price_levels self - 1) in
  bucket_price <- list_getitem price_levels bucket_idx ;;
  Some (add_volume volume_by_price bucket_price (LiveQuote.volume tick)).

Fixpoint bucket_volumes (self : t) (price_min bucket_size : Q)
    (price_levels : list Q) (volume_by_price : volume_dict)
    (ticks : list LiveQuote.t) : option volume_dict :=
  match ticks with
  | [] => Some volume_by_price
  | tick :: rest =>
    d <- add_tick_to_bucket self price_min bucket_size price_levels volume_by_price tick ;;
    bucket_volumes self price_min bucket_size price_levels d rest
  end.

(** The [try] block of [calculate_volume_profile] up to the construction
    of the [VolumeProfileData]; [None] is both [return None] and an
    exception caught by the handler (which returns [None] too). *)
Definition build_profile (self : t) (symbol : string)
    (start_time end_time : option Z) (now : Z) : option VolumeProfileData.t :=
  let ticks := match sget (tick_data self) symbol with Some l => l | None => [] end in
  match ticks with
  | [] => None
  | _ :: _ =>
    let ticks := window_ticks ticks start_time end_time in
    if (List.length ticks <? 10)%nat then None else
    let prices := map LiveQuote.ltp ticks in
    price_min <- py_min prices ;;
    price_max <- py_max prices ;;
    let price_range := price_max - price_min in
    if Qeq_bool price_range 0 then None else
    if (num_price_levels self =? 0)%Z then None (* ZeroDivisionError *) else
    let bucket_size := price_range / inject_Z (num_price_levels self) in
    let price_levels :=
      map (fun i => price_min + inject_Z (Z.of_nat i) * bucket_size)
          (seq 0 (Z.to_nat (num_price_levels self + 1))) in
    volume_by_price <- bucket_volumes self price_min bucket_size price_levels [] ticks ;;
    top <- py_max_by snd volume_by_price ;;
    let poc := fst top in
    let poc_volume := volume_at volume_by_price poc in
    let total_volume := py_sum (PyDict.values volume_by_price) in
    va <- _calculate_value_area self volume_by_price poc total_volume ;;
    let '(vah, val, value_area_volume) := va in
    let avg_volume :=
      inject_Z total_volume / inject_Z (Z.of_nat (List.length volume_by_price)) in
    let hvn_levels :=
      map fst (filter (fun kv => Qle_bool (1.5 * avg_volume) (inject_Z (snd kv)))
                      volume_by_price) in
    let lvn_levels :=
      map fst (filter (fun kv => Qle_bool (inject_Z (snd kv)) (0.5 * avg_volume))
                      volume_by_price) in
    let poc_strength :=
      if Qlt_bool 0 avg_volume then inject_Z poc_volume / avg_volume else 0 in
    let profile_width := vah - val in
    let profile_width_pct :=
      if Qlt_bool 0 poc then profile_width / poc * 100 else 0 in
    first <- hd_error ticks ;;
    final <- list_getitem ticks (-1) ;;
    Some (VolumeProfileData.mk symbol poc vah val price_max price_min
            total_volume value_area_volume volume_by_price price_levels
            (py_sorted hvn_levels) (py_sorted lvn_levels)
            poc_strength profile_width profile_width_pct
            now (LiveQuote.timestamp first) (LiveQuote.timestamp final)
            (Z.of_nat (List.length ticks)))
  end.

(** [calculate_volume_profile]: a built profile is cached and returned;
    otherwise the calculator is left as it was. *)
Definition calculate_volume_profile (self : t) (symbol : string)
    (start_time end_time : option Z) (now : Z) : t * option VolumeProfileData.t :=
  match build_profile self symbol start_time end_time now with
  | Some vp_data =>
    (mk (num_price_levels self) (value_area_pct self) (tick_data self)
        (sset (calculated_profiles self) symbol vp_data),
     Some vp_data)
  | None => (self, None)
  end.

Definition get_cached_profile (self : t) (symbol : string) : option VolumeProfileData.t :=
  sget (calculated_profiles self) symbol.

End VolumeProfileCalculator.

(** ** Floats that may be infinite *)

(** [Position.lowest_price] starts at [float('inf')] for a long position,
    and [current_stop_loss] can be assigned a product of it. *)
Inductive pyfloat := Fin (q : Q) | PInf | NInf | NaN.

(** [x < y]. *)
Definition flt (x y : pyfloat) : bool :=
  match x, y with
  | Fin a, Fin b => Qlt_bool a b
  | Fin _, PInf | NInf, Fin _ | NInf, PInf => true
  | _, _ => false
  end.

(** [x <= y]. *)
Definition fle (x y : pyfloat) : bool :=
  match x, y with
  | Fin a, Fin b => Qle_bool a b
  | Fin _, PInf | NInf, Fin _ | NInf, PInf | PInf, PInf | NInf, NInf => true
  | _, _ => false
  end.

(** [x * q] for a finite [q]. *)
Definition fmul (x : pyfloat) (q : Q) : pyfloat :=
  match x with
  | Fin a => Fin (a * q)
  | PInf => if Qlt_bool 0 q then PInf else if Qlt_bool q 0 then NInf else NaN
  | NInf => if Qlt_bool 0 q then NInf else if Qlt_bool q 0 then PInf else NaN
  | NaN => NaN
  end.

(** ** models/trading_models.py: signals, positions, trade results *)

Module VolumeProfileSignal.
Record t := mk {
  symbol : string;
  signal_type : SignalType;
  vp_data : VolumeProfileData.t;
  breakout_level : Q;
  entry_price : Q;
  stop_loss : Q;
  target_price : Q;
  confidence : Q;
  volume_confirmation : Q;
  poc_distance : Q;
  near_hvn : bool;
  near_lvn : bool;
  breakout_volume : Z;
  volume_ratio : Q;
  breakout_distance_pct : Q;
  risk_amount : Q;
  reward_amount : Q;
  risk_reward_ratio : option Q;
  timestamp : Z;
  vp_calculation_time : Z
}.
End VolumeProfileSignal.

Module Position.
Record t := mk {
  symbol : string;
  signal_type : SignalType;
  entry_price : Q;
  quantity : Z;
  stop_loss : Q;
  target_price : Q;
  vp_poc : Q;
  vp_vah : Q;
  vp_val : Q;
  breakout_level : Q;
  entry_time : Z;
  signal_time : Z;
  current_price : Q;
  highest_price : Q;
  lowest_price : pyfloat;
  current_stop_loss : pyfloat;
  order_id : option string;
  sl_order_id : option string;
  target_order_id : option string;
  unrealized_pnl : Q;
  max_favorable_excursion : Q;
  max_adverse_excursion : Q
}.

(** [__post_init__]. *)
Definition __post_init__ (self : t) : t :=
  mk (symbol self) (signal_type self) (entry_price self) (quantity self)
     (stop_loss self) (target_price self) (vp_poc self) (vp_vah self)
     (vp_val self) (breakout_level self) (entry_time self) (signal_time self)
     (current_price self)
     (match signal_type self with LONG => entry_price self | SHORT => 0 end)
     (match signal_type self with SHORT => Fin (entry_price self) | LONG => PInf end)
     (Fin (stop_loss self))
     (order_id self) (sl_order_id self) (target_order_id self)
     (unrealized_pnl self) (max_favorable_excursion self)
     (max_adverse_excursion self).

(** [update_price_extremes]. *)
Definition update_price_extremes (self : t) (price : Q) : t :=
  match signal_type self with
  | LONG =>
    mk (symbol self) (signal_type self) (entry_price self) (quantity self)
       (stop_loss self) (target_price self) (vp_poc self) (vp_vah self)
       (vp_val self) (breakout_level self) (entry_time self) (signal_time self)
       price
       (py_max2 (highest_price self) price)
       (lowest_price self)
       (current_stop_loss self)
       (order_id self) (sl_order_id self) (target_order_id self)
       (unrealized_pnl self)
       (py_max2 (max_favorable_excursion self) (price - entry_price self))
       (py_min2 (max_adverse_excursion self) (price - entry_price self))
  | SHORT =>
    mk (symbol self) (signal_type self) (entry_price self) (quantity self)
       (stop_loss self) (target_price self) (vp_poc self) (vp_vah self)
       (vp_val self) (breakout_level self) (entry_time self) (signal_time self)
       price
       (highest_price self)
       (if flt (Fin price) (lowest_price self) then Fin price else lowest_price self)
       (current_stop_loss self)
       (order_id self) (sl_order_id self) (target_order_id self)
       (unrealized_pnl self)
       (py_max2 (max_favorable_excursion self) (entry_price self - price))
       (py_min2 (max_adverse_excursion self) (entry_price self - price))
  end.

(** Assignments to single attributes. *)
Definition set_unrealized_pnl (self : t) (x : Q) : t :=
  mk (symbol self) (signal_type self) (entry_price self) (quantity self)
     (stop_loss self) (target_price self) (vp_poc self) (vp_vah self)
     (vp_val self) (breakout_level self) (entry_time self) (signal_time self)
     (current_price self) (highest_price self) (lowest_price self)
     (current_stop_loss self)
     (order_id self) (sl_order_id self) (target_order_id self)
     x (max_favorable_excursion self) (max_adverse_excursion self).

Definition set_current_stop_loss (self : t) (x : pyfloat) : t :=
  mk (symbol self) (signal_type self) (entry_price self) (quantity self)
     (stop_loss self) (target_price self) (vp_poc self) (vp_vah self)
     (vp_val self) (breakout_level self) (entry_time self) (signal_time self)
     (current_price self) (highest_price self) (lowest_price self)
     x
     (order_id self) (sl_order_id self) (target_order_id self)
     (unrealized_pnl self) (max_favorable_excursion self)
     (max_adverse_excursion self).
End Position.

Module TradeResult.
Record t := mk {
  symbol : string;
  signal_type : SignalType;
  entry_price : Q;
  exit_price : Q;
  quantity : Z;
  entry_time : Z;
  exit_time : Z;
  holding_period : Q;
  entry_poc : Q;
  entry_vah : Q;
  entry_val : Q;
  breakout_level : Q;
  exit_reason : string;
  gross_pnl : Q;
  net_pnl : Q;
  commission : Q;
  max_favorable_excursion : Q;
  max_adverse_excursion : Q
}.
End TradeResult.

(** ** Attribute access and keyword arguments

    The factory helpers read attributes by name and call the dataclass
    constructors with keyword arguments.  A name the dataclass does not
    declare raises ([AttributeError], [TypeError]); so attribute reads and
    constructor calls go through the names, as Python resolves them. *)

Inductive pyval :=
| VFloat (q : Q)
| VXFloat (x : pyfloat)
| VInt (z : Z)
| VStr (s : string)
| VOptStr (s : option string)
| VBool (b : bool)
| VSide (s : SignalType)
| VTime (t : Z)
| VProfile (p : VolumeProfileData.t).

Definition as_float (v : pyval) : option Q :=
  match v with VFloat q => Some q | VInt z => Some (inject_Z z) | _ => None end.
Definition as_int (v : pyval) : option Z :=
  match v with VInt z => Some z | _ => None end.
Definition as_str (v : pyval) : option string :=
  match v with VStr s => Some s | _ => None end.
Definition as_side (v : pyval) : option SignalType :=
  match v with VSide s => Some s | _ => None end.
Definition as_time (v : pyval) : option Z :=
  match v with VTime t => Some t | _ => None end.

(** [getattr(obj, name)] on a record given as its attribute table. *)
Definition getattr (attrs : list (string * pyval)) (name : string) : option pyval :=
  sget attrs name.

Definition VolumeProfileSignal_attrs (s : VolumeProfileSignal.t) : list (string * pyval) :=
  [("symbol", VStr (VolumeProfileSignal.symbol s));
   ("signal_type", VSide (VolumeProfileSignal.signal_type s));
   ("vp_data", VProfile (VolumeProfileSignal.vp_data s));
   ("breakout_level", VFloat (VolumeProfileSignal.breakout_level s));
   ("entry_price", VFloat (VolumeProfileSignal.entry_price s));
   ("stop_loss", VFloat (VolumeProfileSignal.stop_loss s));
   ("target_price", VFloat (VolumeProfileSignal.target_price s));
   ("confidence", VFloat (VolumeProfileSignal.confidence s));
   ("volume_confirmation", VFloat (VolumeProfileSignal.volume_confirmation s));
   ("poc_distance", VFloat (VolumeProfileSignal.poc_distance s));
   ("near_hvn", VBool (VolumeProfileSignal.near_hvn s));
   ("near_lvn", VBool (VolumeProfileSignal.near_lvn s));
   ("breakout_volume", VInt (VolumeProfileSignal.breakout_volume s));
   ("volume_ratio", VFloat (VolumeProfileSignal.volume_ratio s));
   ("breakout_distance_pct", VFloat (VolumeProfileSignal.breakout_distance_pct s));
   ("risk_amount", VFloat (VolumeProfileSignal.risk_amount s));
   ("reward_amount", VFloat (VolumeProfileSignal.reward_amount s));
   ("timestamp", VTime (VolumeProfileSignal.timestamp s));
   ("vp_calculation_time", VTime (VolumeProfileSignal.vp_calculation_time s))]
  ++ match VolumeProfileSignal.risk_reward_ratio s with
     | Some r => [("risk_reward_ratio", VFloat r)]
     | None => []
     end.

Definition Position_attrs (p : Position.t) : list (string * pyval) :=
  [("symbol", VStr (Position.symbol p));
   ("signal_type", VSide (Position.signal_type p));
   ("entry_price", VFloat (Position.entry_price p));
   ("quantity", VInt (Position.quantity p));
   ("stop_loss", VFloat (Position.stop_loss p));
   ("target_price", VFloat (Position.target_price p));
   ("vp_poc", VFloat (Position.vp_poc p));
   ("vp_vah", VFloat (Position.vp_vah p));
   ("vp_val", VFloat (Position.vp_val p));
   ("breakout_level", VFloat (Position.breakout_level p));
   ("entry_time", VTime (Position.entry_time p));
   ("signal_time", VTime (Position.signal_time p));
   ("current_price", VFloat (Position.current_price p));
   ("highest_price", VFloat (Position.highest_price p));
   ("lowest_price", VXFloat (Position.lowest_price p));
   ("current_stop_loss", VXFloat (Position.current_stop_loss p));
   ("order_id", VOptStr (Position.order_id p));
   ("sl_order_id", VOptStr (Position.sl_order_id p));
   ("target_order_id", VOptStr (Position.target_order_id p));
   ("unrealized_pnl", VFloat (Position.unrealized_pnl p));
   ("max_favorable_excursion", VFloat (Position.max_favorable_excursion p));
   ("max_adverse_excursion", VFloat (Position.max_adverse_excursion p))].

Definition attr_float (attrs : list (string * pyval)) (name : string) : option Q :=
  v <- getattr attrs name ;; as_float v.
Definition attr_int (attrs : list (string * pyval)) (name : string) : option Z :=
  v <- getattr attrs name ;; as_int v.
Definition attr_str (attrs : list (string * pyval)) (name : string) : option string :=
  v <- getattr attrs name ;; as_str v.
Definition attr_side (attrs : list (string * pyval)) (name : string) : option SignalType :=
  v <- getattr attrs name ;; as_side v.
Definition attr_time (attrs : list (string * pyval)) (name : string) : option Z :=
  v <- getattr attrs name ;; as_time v.

(** The parameters of the generated [Position.__init__]: the twelve
    fields without a default, then the ten with one. *)
Definition Position_required : list string :=
  ["symbol"; "signal_type"; "entry_price"; "quantity"; "stop_loss";
   "target_price"; "vp_poc"; "vp_vah"; "vp_val"; "breakout_level";
   "entry_time"; "signal_time"].

Definition Position_optional : list string :=
  ["current_price"; "highest_price"; "lowest_price"; "current_stop_loss";
   "order_id"; "sl_order_id"; "target_order_id"; "unrealized_pnl";
   "max_favorable_excursion"; "max_adverse_excursion"].

Definition kw_float_or (kwargs : list (string * pyval)) (name : string) (default : Q)
    : option Q :=
  match getattr kwargs name with
  | Some v => as_float v
  | None => Some default
  end.

Definition kw_xfloat_or (kwargs : list (string * pyval)) (name : string) (default : Q)
    : option pyfloat :=
  match getattr kwargs name with
  | Some (VXFloat x) => Some x
  | Some v => q <- as_float v ;; Some (Fin q)
  | None => Some (Fin default)
  end.

Definition kw_optstr (kwargs : list (string * pyval)) (name : string)
    : option (option string) :=
  match getattr kwargs name with
  | Some (VStr s) => Some (Some s)
  | Some (VOptStr s) => Some s
  | Some _ => None
  | None => Some None
  end.

(** The constructor call [Position(k1=v1, ...)]: [TypeError] on a keyword that is no parameter and
    on a missing required one; then [__post_init__]. *)
Definition Position_new (kwargs : list (string * pyval)) : option Position.t :=
  if negb (forallb (fun kv => hasattr (Position_required ++ Position_optional) (fst kv))
                   kwargs)
  then None else
  symbol <- attr_str kwargs "symbol" ;;
  signal_type <- attr_side kwargs "signal_type" ;;
  entry_price <- attr_float kwargs "entry_price" ;;
  quantity <- attr_int kwargs "quantity" ;;
  stop_loss <- attr_float kwargs "stop_loss" ;;
  target_price <- attr_float kwargs "target_price" ;;
  vp_poc <- attr_float kwargs "vp_poc" ;;
  vp_vah <- attr_float kwargs "vp_vah" ;;
  vp_val <- attr_float kwargs "vp_val" ;;
  breakout_level <- attr_float kwargs "breakout_level" ;;
  entry_time <- attr_time kwargs "entry_time" ;;
  signal_time <- attr_time kwargs "signal_time" ;;
  current_price <- kw_float_or kwargs "current_price" 0 ;;
  highest_price <- kw_float_or kwargs "highest_price" 0 ;;
  lowest_price <- kw_xfloat_or kwargs "lowest_price" 0 ;;
  current_stop_loss <- kw_xfloat_or kwargs "current_stop_loss" 0 ;;
  order_id <- kw_optstr kwargs "order_id" ;;
  sl_order_id <- kw_optstr kwargs "sl_order_id" ;;
  target_order_id <- kw_optstr kwargs "target_order_id" ;;
  unrealized_pnl <- kw_float_or kwargs "unrealized_pnl" 0 ;;
  max_favorable_excursion <- kw_float_or kwargs "max_favorable_excursion" 0 ;;
  max_adverse_excursion <- kw_float_or kwargs "max_adverse_excursion" 0 ;;
  Some (Position.__post_init__
          (Position.mk symbol signal_type entry_price quantity stop_loss
             target_price vp_poc vp_vah vp_val breakout_level entry_time
             signal_time current_price highest_price lowest_price
             current_stop_loss order_id sl_order_id target_order_id
             unrealized_pnl max_favorable_excursion max_adverse_excursion)).

(** [create_position_from_signal]: the keyword arguments are evaluated in
    the order written, each an attribute read on the signal, and passed to
    [Position]. *)
Definition create_position_from_signal (signal : VolumeProfileSignal.t)
    (quantity : Z) (order_id : string) : option Position.t :=
  let s := VolumeProfileSignal_attrs signal in
  symbol <- getattr s "symbol" ;;
  signal_type <- getattr s "signal_type" ;;
  entry_price <- getattr s "entry_price" ;;
  entry_time <- getattr s "timestamp" ;;
  target_price <- getattr s "target_price" ;;
  initial_stop_loss <- getattr s "stop_loss" ;;
  current_stop_loss <- getattr s "stop_loss" ;;
  poc <- getattr s "poc" ;;
  vah <- getattr s "vah" ;;
  val <- getattr s "val" ;;
  breakout_level <- getattr s "breakout_level" ;;
  breakout_type <- getattr s "breakout_type" ;;
  Position_new
    [("symbol", symbol); ("signal_type", signal_type);
     ("entry_price", entry_price); ("quantity", VInt quantity);
     ("entry_time", entry_time); ("target_price", target_price);
     ("initial_stop_loss", initial_stop_loss);
     ("current_stop_loss", current_stop_loss);
     ("order_id", VStr order_id); ("poc", poc); ("vah", vah); ("val", val);
     ("breakout_level", breakout_level); ("breakout_type", breakout_type)].

(** [TradeResult.__post_init__] applied to the constructor's arguments:
    [net_pnl] and [holding_period] (minutes) are derived. *)
Definition TradeResult_new (symbol : string) (signal_type : SignalType)
    (entry_price exit_price : Q) (quantity entry_time exit_time : Z)
    (entry_poc entry_vah entry_val breakout_level : Q) (exit_reason : string)
    (gross_pnl commission max_favorable_excursion max_adverse_excursion : Q)
    : TradeResult.t :=
  TradeResult.mk symbol signal_type entry_price exit_price quantity
    entry_time exit_time
    (inject_Z (exit_time - entry_time) / 60)
    entry_poc entry_vah entry_val breakout_level exit_reason gross_pnl
    (gross_pnl - commission) commission
    max_favorable_excursion max_adverse_excursion.

(** [create_trade_result_from_position]; [breakout_type] is accepted and
    not used, as in the source. *)
Definition create_trade_result_from_position (position : Position.t)
    (exit_price : Q) (exit_reason breakout_type : string) (commission : Q)
    (now : Z) : option TradeResult.t :=
  let p := Position_attrs position in
  signal_type <- attr_side p "signal_type" ;;
  entry_price <- attr_float p "entry_price" ;;
  quantity <- attr_int p "quantity" ;;
  let gross_pnl :=
    match signal_type with
    | LONG => (exit_price - entry_price) * inject_Z quantity
    | SHORT => (entry_price - exit_price) * inject_Z (Z.abs quantity)
    end in
  symbol <- attr_str p "symbol" ;;
  entry_time <- attr_time p "entry_time" ;;
  entry_poc <- attr_float p "poc" ;;
  entry_vah <- attr_float p "vah" ;;
  entry_val <- attr_float p "val" ;;
  breakout_level <- attr_float p "breakout_level" ;;
  max_favorable_excursion <- attr_float p "max_favorable_excursion" ;;
  max_adverse_excursion <- attr_float p "max_adverse_excursion" ;;
  Some (TradeResult_new symbol signal_type entry_price exit_price quantity
          entry_time now entry_poc entry_vah entry_val breakout_level
          exit_reason gross_pnl commission
          max_favorable_excursion max_adverse_excursion).

(** ** config/settings.py: the strategy configuration (fields the strategy reads) *)

Module Config.
Record t := mk {
  portfolio_value : Q;
  risk_per_trade_pct : Q;
  max_positions : Z;
  price_buckets : Z;
  value_area_pct : Q;
  min_breakout_distance_pct : Q;
  min_volume_ratio : Q;
  min_poc_distance_pct : Q;
  min_confidence : Q;
  require_volume_confirmation : bool;
  avoid_low_volume_nodes : bool;
  target_multiplier : Q;
  trailing_stop_pct : Q;
  enable_trailing_stops : bool
}.

(** The defaults of [VolumeProfileStrategyConfig]. *)
Definition default : t :=
  mk 100000 1 5 50 70 0.3 1.5 1 0.65 true true 2 0.5 true.
End Config.

(** ** strategy/volume_profile_strategy.py *)

Module Strategy.

Record t := mk {
  strategy_config : Config.t;
  vp_calculator : VolumeProfileCalculator.t;
  positions : str_dict Position.t;
  completed_trades : list TradeResult.t;
  volume_profiles : str_dict VolumeProfileData.t;
  vp_calculated : bool;
  signals_generated_today : list VolumeProfileSignal.t;
  daily_pnl : Q;
  live_quotes : str_dict LiveQuote.t;
  breakout_detected : str_dict string
}.

Definition with_positions (self : t) (ps : str_dict Position.t) : t :=
  mk (strategy_config self) (vp_calculator self) ps (completed_trades self)
     (volume_profiles self) (vp_calculated self) (signals_generated_today self)
     (daily_pnl self) (live_quotes self) (breakout_detected self).


(** [_update_trailing_stop]; [current_price] is accepted and not read. *)
Definition _update_trailing_stop (cfg : Config.t) (position : Position.t)
    (current_price : Q) : Position.t :=
  match Position.signal_type position with
  | LONG =>
    let new_stop :=
      Position.highest_price position * (1 - Config.trailing_stop_pct cfg / 100) in
    if flt (Position.current_stop_loss position) (Fin new_stop)
    then Position.set_current_stop_loss position (Fin new_stop)
    else position
  | SHORT =>
    let new_stop :=
      fmul (Position.lowest_price position) (1 + Config.trailing_stop_pct cfg / 100) in
    if flt new_stop (Position.current_stop_loss position)
    then Position.set_current_stop_loss position new_stop
    else position
  end.

(** The updates [_update_position_tracking] makes to the position object. *)
Definition track_position (cfg : Config.t) (position : Position.t)
    (current_price : Q) : Position.t :=
  let position := Position.update_price_extremes position current_price in
  let position :=
    Position.set_unrealized_pnl position
      match Position.signal_type position with
      | LONG => (current_price - Position.entry_price position)
                * inject_Z (Position.quantity position)
      | SHORT => (Position.entry_price position - current_price)
                 * inject_Z (Z.abs (Position.quantity position))
      end in
  if Config.enable_trailing_stops cfg
  then _update_trailing_stop cfg position current_price
  else position.

(** [_update_position_tracking]: the position object is mutated in place;
    a missing symbol is a [KeyError], caught. *)
Definition _update_position_tracking (self : t) (symbol : string)
    (live_quote : LiveQuote.t) : t :=
  match sget (positions self) symbol with
  | None => self
  | Some position =>
    with_positions self
      (sset (positions self) symbol
         (track_position (strategy_config self) position (LiveQuote.ltp live_quote)))
  end.


(** [_calculate_signal_confidence]; the handler's 0.5 is not reachable on
    numeric arguments. *)
Definition _calculate_signal_confidence (vp_data : VolumeProfileData.t)
    (entry_price volume_ratio : Q) (near_hvn near_lvn : bool)
    (distance_from_poc_pct : Q) : Q :=
  let confidence := 0 in
  let confidence :=
    if Qle_bool 2 volume_ratio then confidence + 0.30
    else if Qle_bool 1.5 volume_ratio then confidence + 0.20
    else if Qle_bool 1 volume_ratio then confidence + 0.10
    else confidence in
  let confidence :=
    if Qle_bool 2 distance_from_poc_pct then confidence + 0.25
    else if Qle_bool 1.5 distance_from_poc_pct then confidence + 0.20
    else if Qle_bool 1 distance_from_poc_pct then confidence + 0.15
    else confidence in
  let confidence :=
    if near_hvn then confidence + 0.25
    else if negb near_lvn then confidence + 0.15
    else confidence + 0.05 in
  let confidence :=
    if Qle_bool 2 (VolumeProfileData.poc_strength vp_data) then confidence + 0.20
    else if Qle_bool 1.5 (VolumeProfileData.poc_strength vp_data) then confidence + 0.15
    else confidence + 0.10 in
  py_min2 confidence 1.

(** [_evaluate_breakout_signal].  After the two rejection filters the
    source evaluates [vp_data.low_volume_nodes] as an argument of
    [is_near_volume_node]; [VolumeProfileData] declares [lvn_levels] and no
    [low_volume_nodes] (see [low_volume_nodes_undeclared]), so the read
    raises [AttributeError], the handler returns [None], and no later
    statement of the function is reached. *)
Definition _evaluate_breakout_signal (self : t) (symbol breakout_type : string)
    (live_quote : LiveQuote.t) (vp_data : VolumeProfileData.t) (now : Z)
    : option VolumeProfileSignal.t :=
  let cfg := strategy_config self in
  let current_price := LiveQuote.ltp live_quote in
  let poc := VolumeProfileData.poc vp_data in
  let entry_price := current_price in
  let stop_loss := poc in
  let target_price :=
    if breakout_type =? "VAH"
    then entry_price + (entry_price - stop_loss) * Config.target_multiplier cfg
    else entry_price - (stop_loss - entry_price) * Config.target_multiplier cfg in
  if Qeq_bool poc 0 then None (* ZeroDivisionError *) else
  let distance_from_poc_pct := Qabs (entry_price - poc) / poc * 100 in
  if Qlt_bool distance_from_poc_pct (Config.min_poc_distance_pct cfg) then None else
  let volume_ratio := 1 in
  if Config.require_volume_confirmation cfg
     && Qlt_bool volume_ratio (Config.min_volume_ratio cfg) then None else
  None (* AttributeError: vp_data.low_volume_nodes *).

(** [_execute_signal]: the new state and the returned flag. *)
Definition _execute_signal (self : t) (signal : VolumeProfileSignal.t) (now : Z)
    : t * bool :=
  let cfg := strategy_config self in
  let risk_amount := Config.portfolio_value cfg * Config.risk_per_trade_pct cfg / 100 in
  let price_risk :=
    Qabs (VolumeProfileSignal.entry_price signal - VolumeProfileSignal.stop_loss signal) in
  if Qle_bool price_risk 0 then (self, false) else
  let quantity := py_int (risk_amount / price_risk) in
  if (quantity <=? 0)%Z then (self, false) else
  match create_position_from_signal signal
          (match VolumeProfileSignal.signal_type signal with
           | LONG => quantity
           | SHORT => (- quantity)%Z
           end)
          ("VP_" ++ VolumeProfileSignal.symbol signal ++ "_"
           ++ NilZero.string_of_int (Z.to_int now))
  with
  | None => (self, false)
  | Some position =>
    (mk (strategy_config self) (vp_calculator self)
        (sset (positions self) (VolumeProfileSignal.symbol signal) position)
        (completed_trades self) (volume_profiles self) (vp_calculated self)
        (signals_generated_today self ++ [signal])
        (daily_pnl self) (live_quotes self) (breakout_detected self),
     true)
  end.

(** [new_signals.sort(key=lambda x: x.confidence, reverse=True)]: stable,
    by descending confidence. *)
Fixpoint insert_by_confidence (x : VolumeProfileSignal.t)
    (l : list VolumeProfileSignal.t) : list VolumeProfileSignal.t :=
  match l with
  | [] => [x]
  | y :: r =>
    if Qlt_bool (VolumeProfileSignal.confidence x) (VolumeProfileSignal.confidence y)
    then y :: insert_by_confidence x r
    else x :: l
  end.

Definition sort_by_confidence (l : list VolumeProfileSignal.t) : list VolumeProfileSignal.t :=
  fold_right insert_by_confidence [] l.

(** The first loop of [scan_for_breakout_signals]: the signals evaluated
    for the detected breakouts, in the order of the dict. *)
Fixpoint collect_signals (self : t) (detected : list (string * string)) (now : Z)
    : list VolumeProfileSignal.t :=
  match detected with
  | [] => []
  | (symbol, breakout_type) :: rest =>
    let more := collect_signals self rest now in
    if smem (positions self) symbol then more else
    match sget (live_quotes self) symbol, sget (volume_profiles self) symbol with
    | Some live_quote, Some vp_data =>
      match _evaluate_breakout_signal self symbol breakout_type live_quote vp_data now with
      | Some signal => signal :: more
      | None => more
      end
    | _, _ => more
    end
  end.

(** The second loop: the top signals that reach [min_confidence] are executed. *)
Fixpoint execute_signals (self : t) (signals : list VolumeProfileSignal.t) (now : Z) : t :=
  match signals with
  | [] => self
  | signal :: rest =>
    if Qle_bool (Config.min_confidence (strategy_config self))
                (VolumeProfileSignal.confidence signal)
    then execute_signals (fst (_execute_signal self signal now)) rest now
    else execute_signals self rest now
  end.

(** [scan_for_breakout_signals]. *)
Definition scan_for_breakout_signals (self : t) (now : Z) : t :=
  match breakout_detected self with
  | [] => self
  | _ :: _ =>
    let new_signals := sort_by_confidence (collect_signals self (breakout_detected self) now) in
    let available_slots :=
      (Config.max_positions (strategy_config self)
       - Z.of_nat (List.length (positions self)))%Z in
    execute_signals self (list_prefix new_signals available_slots) now
  end.

(** [_should_exit_on_stop_loss] and [_should_exit_on_target]. *)
Definition _should_exit_on_stop_loss (position : Position.t) (current_price : Q) : bool :=
  match Position.signal_type position with
  | LONG => fle (Fin current_price) (Position.current_stop_loss position)
  | SHORT => fle (Position.current_stop_loss position) (Fin current_price)
  end.

Definition _should_exit_on_target (position : Position.t) (current_price : Q) : bool :=
  match Position.signal_type position with
  | LONG => Qle_bool (Position.target_price position) current_price
  | SHORT => Qle_bool current_price (Position.target_price position)
  end.

(** [_close_position]: any exception leaves the strategy as it was. *)
Definition _close_position (self : t) (symbol reason breakout_type : string) (now : Z) : t :=
  let attempt :=
    position <- sget (positions self) symbol ;;
    live_quote <- sget (live_quotes self) symbol ;;
    trade_result <- create_trade_result_from_position position
                      (LiveQuote.ltp live_quote) reason breakout_type 0 now ;;
    Some (mk (strategy_config self) (vp_calculator self)
             (sdel (positions self) symbol)
             (completed_trades self ++ [trade_result])
             (volume_profiles self) (vp_calculated self)
             (signals_generated_today self)
             (daily_pnl self + TradeResult.net_pnl trade_result)
             (live_quotes self) (breakout_detected self)) in
  match attempt with
  | Some self' => self'
  | None => self
  end.

(** The first loop of [monitor_positions]: [(symbol, reason, breakout_type)]
    for the positions to close. *)
Fixpoint positions_to_close (self : t) (ps : list (string * Position.t))
    : list (string * string * string) :=
  match ps with
  | [] => []
  | (symbol, position) :: rest =>
    let more := positions_to_close self rest in
    match sget (live_quotes self) symbol with
    | None => more
    | Some live_quote =>
      let current_price := LiveQuote.ltp live_quote in
      let breakout_type :=
        match Position.signal_type position with
        | LONG => "VAH_BREAKOUT"
        | SHORT => "VAL_BREAKOUT"
        end in
      if _should_exit_on_stop_loss position current_price
      then (symbol, "STOP_LOSS", breakout_type) :: more
      else if _should_exit_on_target position current_price
      then (symbol, "TARGET", breakout_type) :: more
      else more
    end
  end.

(** [monitor_positions]. *)
Definition monitor_positions (self : t) (now : Z) : t :=
  fold_left
    (fun s '(symbol, reason, breakout_type) => _close_position s symbol reason breakout_type now)
    (positions_to_close self (positions self))
    self.

End Strategy.

(** ** Further methods of the calculator and of the profile *)

(** [VolumeProfileCalculator.__init__]. *)
Definition VolumeProfileCalculator_init (num_price_levels : Z) (value_area_pct : Q)
    : VolumeProfileCalculator.t :=
  VolumeProfileCalculator.mk num_price_levels value_area_pct [] [].

(** [clear_tick_data]: the list of a known symbol is emptied in place (the
    key stays); an unknown symbol changes nothing. *)
Definition clear_tick_data (self : VolumeProfileCalculator.t) (symbol : string)
    : VolumeProfileCalculator.t :=
  if smem (VolumeProfileCalculator.tick_data self) symbol
  then VolumeProfileCalculator.mk
         (VolumeProfileCalculator.num_price_levels self)
         (VolumeProfileCalculator.value_area_pct self)
         (sset (VolumeProfileCalculator.tick_data self) symbol [])
         (VolumeProfileCalculator.calculated_profiles self)
  else self.







(** [VolumeProfileData.get_volume_at_price]. *)
Definition get_volume_at_price (vp_data : VolumeProfileData.t) (price tolerance : Q) : Z :=
  fold_left
    (fun total_volume kv =>
       if Qle_bool (Qabs (fst kv - price)) tolerance
       then (total_volume + snd kv)%Z else total_volume)
    (VolumeProfileData.volume_by_price vp_data) 0%Z.

(** ** models/trading_models.py: the signal constructor and its factory *)

Definition kw_bool (kwargs : list (string * pyval)) (name : string) : option bool :=
  v <- getattr kwargs name ;; match v with VBool b => Some b | _ => None end.

Definition kw_profile (kwargs : list (string * pyval)) (name : string)
    : option VolumeProfileData.t :=
  v <- getattr kwargs name ;; match v with VProfile p => Some p | _ => None end.

(** The parameters of the generated [VolumeProfileSignal.__init__]: every
    field but [risk_reward_ratio] ([init=False]), none with a default. *)
Definition VolumeProfileSignal_required : list string :=
  ["symbol"; "signal_type"; "vp_data"; "breakout_level"; "entry_price";
   "stop_loss"; "target_price"; "confidence"; "volume_confirmation";
   "poc_distance"; "near_hvn"; "near_lvn"; "breakout_volume"; "volume_ratio";
   "breakout_distance_pct"; "risk_amount"; "reward_amount"; "timestamp";
   "vp_calculation_time"].

(** The constructor call [VolumeProfileSignal(k1=v1, ...)], then
    [__post_init__]: [risk_reward_ratio] is assigned only for a positive
    [risk_amount]. *)
Definition VolumeProfileSignal_new (kwargs : list (string * pyval))
    : option VolumeProfileSignal.t :=
  if negb (forallb (fun kv => hasattr VolumeProfileSignal_required (fst kv)) kwargs)
  then None else
  symbol <- attr_str kwargs "symbol" ;;
  signal_type <- attr_side kwargs "signal_type" ;;
  vp_data <- kw_profile kwargs "vp_data" ;;
  breakout_level <- attr_float kwargs "breakout_level" ;;
  entry_price <- attr_float kwargs "entry_price" ;;
  stop_loss <- attr_float kwargs "stop_loss" ;;
  target_price <- attr_float kwargs "target_price" ;;
  confidence <- attr_float kwargs "confidence" ;;
  volume_confirmation <- attr_float kwargs "volume_confirmation" ;;
  poc_distance <- attr_float kwargs "poc_distance" ;;
  near_hvn <- kw_bool kwargs "near_hvn" ;;
  near_lvn <- kw_bool kwargs "near_lvn" ;;
  breakout_volume <- attr_int kwargs "breakout_volume" ;;
  volume_ratio <- attr_float kwargs "volume_ratio" ;;
  breakout_distance_pct <- attr_float kwargs "breakout_distance_pct" ;;
  risk_amount <- attr_float kwargs "risk_amount" ;;
  reward_amount <- attr_float kwargs "reward_amount" ;;
  timestamp <- attr_time kwargs "timestamp" ;;
  vp_calculation_time <- attr_time kwargs "vp_calculation_time" ;;
  Some (VolumeProfileSignal.mk symbol signal_type vp_data breakout_level
          entry_price stop_loss target_price confidence volume_confirmation
          poc_distance near_hvn near_lvn breakout_volume volume_ratio
          breakout_distance_pct risk_amount reward_amount
          (if Qlt_bool 0 risk_amount then Some (reward_amount / risk_amount) else None)
          timestamp vp_calculation_time).

(** [create_vp_signal_from_symbol]: the keyword arguments as written in
    the source. *)
Definition create_vp_signal_from_symbol (symbol : string) (signal_type : SignalType)
    (vp_data : VolumeProfileData.t) (breakout_level : Q) (breakout_type : string)
    (entry_price stop_loss target_price confidence volume_ratio : Q)
    (breakout_volume : Z) (distance_from_poc_pct : Q) (near_hvn near_lvn : bool)
    (timestamp vp_calculation_time : Z) (risk_amount reward_amount : Q)
    : option VolumeProfileSignal.t :=
  VolumeProfileSignal_new
    [("symbol", VStr symbol); ("signal_type", VSide signal_type);
     ("timestamp", VTime timestamp); ("entry_price", VFloat entry_price);
     ("stop_loss", VFloat stop_loss); ("target_price", VFloat target_price);
     ("confidence", VFloat confidence);
     ("poc", VFloat (VolumeProfileData.poc vp_data));
     ("vah", VFloat (VolumeProfileData.vah vp_data));
     ("val", VFloat (VolumeProfileData.val vp_data));
     ("breakout_level", VFloat breakout_level);
     ("breakout_type", VStr breakout_type);
     ("volume_ratio", VFloat volume_ratio);
     ("breakout_volume", VInt breakout_volume);
     ("distance_from_poc_pct", VFloat distance_from_poc_pct);
     ("near_hvn", VBool near_hvn); ("near_lvn", VBool near_lvn);
     ("vp_calculation_time", VTime vp_calculation_time);
     ("risk_amount", VFloat risk_amount); ("reward_amount", VFloat reward_amount)].

(** ** models/trading_models.py: [StrategyMetrics] *)

(** [sum] of floats and the count of the elements that satisfy a test. *)
Definition py_fsum (xs : list Q) : Q := fold_left Qplus xs 0.

Definition py_count {A : Type} (f : A -> bool) (xs : list A) : Z :=
  Z.of_nat (List.length (filter f xs)).

Module StrategyMetrics.
Record t := mk {
  total_trades : Z;
  winning_trades : Z;
  losing_trades : Z;
  win_rate : Q;
  total_pnl : Q;
  gross_profit : Q;
  gross_loss : Q;
  max_drawdown : Q;
  max_portfolio_risk : Q;
  vah_breakout_trades : Z;
  val_breakout_trades : Z;
  vah_win_rate : Q;
  val_win_rate : Q;
  avg_poc_distance : Q;
  avg_holding_period : Q;
  daily_pnl : Q;
  weekly_pnl : Q;
  monthly_pnl : Q
}.

Definition is_win (t : TradeResult.t) : bool := Qlt_bool 0 (TradeResult.net_pnl t).
Definition is_loss (t : TradeResult.t) : bool := Qlt_bool (TradeResult.net_pnl t) 0.
Definition is_long (t : TradeResult.t) : bool :=
  SignalType_eqb (TradeResult.signal_type t) LONG.
Definition is_short (t : TradeResult.t) : bool :=
  SignalType_eqb (TradeResult.signal_type t) SHORT.

(** The distances of the last loop of [update_metrics]; a trade with
    [entry_poc] zero divides by zero. *)
Fixpoint poc_distances (trades : list TradeResult.t) : option (list Q) :=
  match trades with
  | [] => Some []
  | t :: rest =>
    if Qeq_bool (TradeResult.entry_poc t) 0 then None else
    ds <- poc_distances rest ;;
    Some (Qabs (TradeResult.entry_price t - TradeResult.entry_poc t)
          / TradeResult.entry_poc t * 100 :: ds)
  end.

(** [update_metrics]: the metrics object after the call, and whether the
    call returned ([false]: it raised [ZeroDivisionError] in the last loop,
    after every field but [avg_poc_distance] had been assigned). *)
Definition update_metrics (self : t) (trades : list TradeResult.t) : t * bool :=
  match trades with
  | [] => (self, true)
  | _ :: _ =>
    let n := Z.of_nat (List.length trades) in
    let winning := py_count is_win trades in
    let vah_trades := filter is_long trades in
    let val_trades := filter is_short trades in
    let vah_n := Z.of_nat (List.length vah_trades) in
    let val_n := Z.of_nat (List.length val_trades) in
    let updated (poc_distance : Q) :=
      mk n winning (n - winning)
         (if (0 <? n)%Z then inject_Z winning / inject_Z n * 100 else 0)
         (py_fsum (map TradeResult.net_pnl trades))
         (py_fsum (map TradeResult.net_pnl (filter is_win trades)))
         (py_fsum (map TradeResult.net_pnl (filter is_loss trades)))
         (max_drawdown self) (max_portfolio_risk self)
         vah_n val_n
         (if (0 <? vah_n)%Z
          then inject_Z (py_count is_win vah_trades) / inject_Z vah_n * 100
          else vah_win_rate self)
         (if (0 <? val_n)%Z
          then inject_Z (py_count is_win val_trades) / inject_Z val_n * 100
          else val_win_rate self)
         poc_distance
         (py_fsum (map TradeResult.holding_period trades) / inject_Z n)
         (daily_pnl self) (weekly_pnl self) (monthly_pnl self) in
    match poc_distances trades with
    | None => (updated (avg_poc_distance self), false)
    | Some ds => (updated (py_fsum ds / inject_Z (Z.of_nat (List.length ds))), true)
    end
  end.
End StrategyMetrics.

(** ** config/symbols.py *)

Module Symbols.

(** [_symbol_mappings], in the order of the source. *)
Definition _symbol_mappings : list (string * string) :=
  [("RELIANCE", "NSE:RELIANCE-EQ"); ("TCS", "NSE:TCS-EQ");
   ("HDFCBANK", "NSE:HDFCBANK-EQ"); ("INFY", "NSE:INFY-EQ");
   ("ICICIBANK", "NSE:ICICIBANK-EQ"); ("HINDUNILVR", "NSE:HINDUNILVR-EQ");
   ("ITC", "NSE:ITC-EQ"); ("SBIN", "NSE:SBIN-EQ");
   ("BHARTIARTL", "NSE:BHARTIARTL-EQ"); ("KOTAKBANK", "NSE:KOTAKBANK-EQ");
   ("WIPRO", "NSE:WIPRO-EQ"); ("HCLTECH", "NSE:HCLTECH-EQ");
   ("TECHM", "NSE:TECHM-EQ"); ("LTI", "NSE:LTI-EQ");
   ("AXISBANK", "NSE:AXISBANK-EQ"); ("INDUSINDBK", "NSE:INDUSINDBK-EQ");
   ("BAJFINANCE", "NSE:BAJFINANCE-EQ"); ("HDFCLIFE", "NSE:HDFCLIFE-EQ");
   ("MARUTI", "NSE:MARUTI-EQ"); ("TATAMOTORS", "NSE:TATAMOTORS-EQ");
   ("M&M", "NSE:M&M-EQ"); ("BAJAJ-AUTO", "NSE:BAJAJ-AUTO-EQ");
   ("HEROMOTOCO", "NSE:HEROMOTOCO-EQ"); ("EICHERMOT", "NSE:EICHERMOT-EQ");
   ("NESTLEIND", "NSE:NESTLEIND-EQ"); ("BRITANNIA", "NSE:BRITANNIA-EQ");
   ("DABUR", "NSE:DABUR-EQ"); ("MARICO", "NSE:MARICO-EQ");
   ("GODREJCP", "NSE:GODREJCP-EQ"); ("COLPAL", "NSE:COLPAL-EQ");
   ("SUNPHARMA", "NSE:SUNPHARMA-EQ"); ("DRREDDY", "NSE:DRREDDY-EQ");
   ("CIPLA", "NSE:CIPLA-EQ"); ("DIVISLAB", "NSE:DIVISLAB-EQ");
   ("TATASTEEL", "NSE:TATASTEEL-EQ"); ("JSWSTEEL", "NSE:JSWSTEEL-EQ");
   ("HINDALCO", "NSE:HINDALCO-EQ"); ("COALINDIA", "NSE:COALINDIA-EQ");
   ("ONGC", "NSE:ONGC-EQ"); ("BPCL", "NSE:BPCL-EQ"); ("IOC", "NSE:IOC-EQ");
   ("NTPC", "NSE:NTPC-EQ"); ("POWERGRID", "NSE:POWERGRID-EQ");
   ("LT", "NSE:LT-EQ"); ("ULTRACEMCO", "NSE:ULTRACEMCO-EQ")].

(** [_reverse_mappings = {v: k for k, v in self._symbol_mappings.items()}]. *)
Definition _reverse_mappings : list (string * string) :=
  fold_left (fun d kv => sset d (snd kv) (fst kv)) _symbol_mappings [].

Section Upper.
(** [str.upper], the built-in. *)
Variable upper : string -> string.

Definition get_fyers_symbol (symbol : string) : option string :=
  sget _symbol_mappings (upper symbol).

Definition get_display_symbol (fyers_symbol : string) : option string :=
  sget _reverse_mappings fyers_symbol.

Definition validate_symbol (symbol : string) : bool :=
  smem _symbol_mappings (upper symbol).

Definition get_all_symbols : list string := PyDict.keys _symbol_mappings.
Definition get_all_fyers_symbols : list string := PyDict.values _symbol_mappings.
Definition get_trading_universe_size : Z := Z.of_nat (List.length _symbol_mappings).

(** The module-level convenience functions. *)
Definition convert_to_fyers_format (symbol : string) : option string :=
  get_fyers_symbol symbol.
Definition convert_from_fyers_format (fyers_symbol : string) : option string :=
  get_display_symbol fyers_symbol.
Definition validate_vp_symbol (symbol : string) : bool := validate_symbol symbol.
Definition get_vp_symbols : list string := get_all_symbols.
Definition get_vp_fyers_symbols : list string := get_all_fyers_symbols.
End Upper.

End Symbols.

(** * Vocabulary of the specification *)

Import VolumeProfileCalculator Strategy.

(** [m] is the first element of [xs] with the largest key: every element
    before it has a strictly smaller key, every element after it a key that
    is not larger. *)
Definition first_max {A : Type} (key : A -> Z) (xs : list A) (m : A) : Prop :=
  exists before after,
    xs = before ++ m :: after
    /\ Forall (fun a => (key a < key m)%Z) before
    /\ Forall (fun a => (key a <= key m)%Z) after.

(** The keys of a dict are pairwise different (as floats). *)
Fixpoint distinct_keys (d : volume_dict) : bool :=
  match d with
  | [] => true
  | (k, _) :: r =>
    match PyDict.get Qeq_bool r k with
    | None => distinct_keys r
    | Some _ => false
    end
  end.

(** No bucket holds a negative volume. *)
Definition nonneg_volumes (d : volume_dict) : Prop :=
  Forall (fun kv => (0 <= snd kv)%Z) d.

(** The volume of the buckets below index [l], and above index [u], of the
    sorted prices. *)
Definition volume_below (d : volume_dict) (sorted_prices : list Q) (l : nat) : Z :=
  py_sum (map (volume_at d) (firstn l sorted_prices)).

Definition volume_above (d : volume_dict) (sorted_prices : list Q) (u : nat) : Z :=
  py_sum (map (volume_at d) (skipn (S u) sorted_prices)).






(** What one detected breakout contributes to the signals of a scan. *)
Definition evaluate_detected (self : Strategy.t) (now : Z) (sb : string * string)
    : list VolumeProfileSignal.t :=
  match sget (live_quotes self) (fst sb), sget (volume_profiles self) (fst sb) with
  | Some live_quote, Some vp_data =>
    match _evaluate_breakout_signal self (fst sb) (snd sb) live_quote vp_data now with
    | Some signal => [signal]
    | None => []
    end
  | _, _ => []
  end.

(** [never_lower a b]: the stop [b] is the stop [a] or strictly above it. *)
Definition never_lower (a b : pyfloat) : Prop := a = b \/ flt a b = true.

(** The stop of a position after one tracked tick, against the stop before. *)
Definition stop_tightened (before after : Position.t) : Prop :=
  match Position.signal_type before with
  | LONG => never_lower (Position.current_stop_loss before)
                        (Position.current_stop_loss after)
  | SHORT => never_lower (Position.current_stop_loss after)
                         (Position.current_stop_loss before)
  end.

(** A position tracked over a sequence of tick prices
    ([_update_position_tracking] on each tick). *)
Definition track_ticks (cfg : Config.t) (position : Position.t) (prices : list Q)
    : Position.t :=
  fold_left (track_position cfg) prices position.





(** The locals of [_execute_signal]. *)
Definition risk_amount (cfg : Config.t) : Q :=
  Config.portfolio_value cfg * Config.risk_per_trade_pct cfg / 100.

Definition price_risk (signal : VolumeProfileSignal.t) : Q :=
  Qabs (VolumeProfileSignal.entry_price signal - VolumeProfileSignal.stop_loss signal).


(** The detected breakouts a scan evaluates: no open position, a quote and
    a profile at hand. *)
Definition scan_candidates (self : Strategy.t) : list (string * string) :=
  filter (fun sb =>
            negb (smem (positions self) (fst sb))
            && match sget (live_quotes self) (fst sb), sget (volume_profiles self) (fst sb) with
               | Some _, Some _ => true
               | _, _ => false
               end)
         (breakout_detected self).

(** What a scan never touches: the detected breakouts, the quotes and the
    profiles.  The proofs follow the assignments of [_execute_signal] and
    do not depend on whether a position is opened. *)
Definition same_market_view (a b : Strategy.t) : Prop :=
  breakout_detected a = breakout_detected b
  /\ live_quotes a = live_quotes b
  /\ volume_profiles a = volume_profiles b.

(** The ticks of [symbol] that a call of [calculate_volume_profile] with
    the given window counts. *)
Definition counted_ticks (self : VolumeProfileCalculator.t) (symbol : string)
    (start_time end_time : option Z) : list LiveQuote.t :=
  window_ticks (match sget (tick_data self) symbol with Some l => l | None => [] end)
               start_time end_time.



(** The average bucket volume that the node detection compares with. *)
Definition average_volume (p : VolumeProfileData.t) : Q :=
  inject_Z (VolumeProfileData.total_volume p)
  / inject_Z (Z.of_nat (List.length (VolumeProfileData.volume_by_price p))).

(** The ticks stored for [symbol] ([self.tick_data[symbol]], empty for a
    symbol never seen). *)
Definition ticks_of (self : VolumeProfileCalculator.t) (symbol : string)
    : list LiveQuote.t :=
  match sget (tick_data self) symbol with Some l => l | None => [] end.

(** A stream of quotes, each for some symbol, stored one by one. *)
Definition store_ticks (self : VolumeProfileCalculator.t)
    (quotes : list (string * LiveQuote.t)) : VolumeProfileCalculator.t :=
  fold_left (fun c sq => add_tick_data c (fst sq) (snd sq)) quotes self.

(** The volume of the buckets from index [l] to index [u] of the sorted
    prices, both included. *)
Definition volume_between (d : volume_dict) (sorted_prices : list Q) (l u : nat) : Z :=
  py_sum (map (volume_at d) (firstn (u - l + 1) (skipn l sorted_prices))).



(** The attributes of a signal that are parameters of its constructor
    (all but [risk_reward_ratio]), as keyword arguments. *)
Definition init_kwargs (s : VolumeProfileSignal.t) : list (string * pyval) :=
  firstn 19 (VolumeProfileSignal_attrs s).

(** The gain per share of a position at a price: above the entry for a
    long position, below it for a short one. *)
Definition excursion (position : Position.t) (price : Q) : Q :=
  match Position.signal_type position with
  | LONG => price - Position.entry_price position
  | SHORT => Position.entry_price position - price
  end.

(** ** Sample data *)

Definition sample_profile : VolumeProfileData.t :=
  VolumeProfileData.mk "RELIANCE" 100 110 90 120 80 1000 700
    [(100, 1000%Z)] [] [] [] 1 20 20 0 0 0 10.

Definition sample_quote (price : Q) : LiveQuote.t :=
  LiveQuote.mk "RELIANCE" price price price price 0 price 0.

Definition sample_calculator : VolumeProfileCalculator.t :=
  VolumeProfileCalculator.mk 50 70 [] [].




(** A long position (entry 100, stop 90, target 120) as the dataclass
    constructor leaves it. *)
Definition sample_position : Position.t :=
  Position.__post_init__
    (Position.mk "RELIANCE" LONG 100 100 90 120 100 110 90 110 0 0
       0 0 (Fin 0) (Fin 0) None None None 0 0 0).

(** A strategy holding that position while the last quote, 89, is below
    its stop. *)
Definition stopped_strategy : Strategy.t :=
  Strategy.mk Config.default sample_calculator [("RELIANCE", sample_position)] []
    [("RELIANCE", sample_profile)] true [] 0
    [("RELIANCE", sample_quote 89)] [].

(** A strategy with a detected VAH breakout of RELIANCE whose last quote,
    100.5, is closer to the POC (100) than [min_poc_distance_pct] allows. *)
Definition rejected_strategy : Strategy.t :=
  Strategy.mk Config.default sample_calculator [] []
    [("RELIANCE", sample_profile)] true [] 0
    [("RELIANCE", sample_quote 100.5)] [("RELIANCE", "VAH")].

(** The scenario of the specification: five buckets, ascending, with
    volumes 100, 100, 500, 100, 200; value area 70%. *)
Definition scenario_volumes : volume_dict :=
  [(1, 100%Z); (2, 100%Z); (3, 500%Z); (4, 100%Z); (5, 200%Z)].

Definition scenario_calculator : VolumeProfileCalculator.t :=
  VolumeProfileCalculator.mk 5 70 [] [].

(** Ten ticks of one instrument between 100 and 102, two buckets: the
    upper bucket (from 101) and the lower bucket (from 100) both collect a
    volume of 550, and the first tick falls into the upper one. *)
Definition tie_ticks : list LiveQuote.t :=
  map (fun pv => LiveQuote.mk "RELIANCE" (fst (fst pv)) 100 102 100
                   (snd (fst pv)) 100 (snd pv))
      [(101.5, 300%Z, 1%Z); (100.5, 300%Z, 2%Z); (102, 100%Z, 3%Z);
       (100, 100%Z, 4%Z); (101, 50%Z, 5%Z); (100.2, 50%Z, 6%Z);
       (101.2, 50%Z, 7%Z); (100.7, 50%Z, 8%Z); (101.8, 50%Z, 9%Z);
       (100.9, 50%Z, 10%Z)].

Definition tie_calculator : VolumeProfileCalculator.t :=
  VolumeProfileCalculator.mk 2 70 [("RELIANCE", tie_ticks)] [].





(** Ten ticks between 100 and 104, four buckets: the bucket from 100
    collects far more than the others. *)
Definition nodes_ticks : list LiveQuote.t :=
  map (fun pv => LiveQuote.mk "RELIANCE" (fst (fst pv)) 100 104 100
                   (snd (fst pv)) 100 (snd pv))
      [(100, 500%Z, 1%Z); (100.5, 400%Z, 2%Z); (101, 50%Z, 3%Z);
       (101.5, 50%Z, 4%Z); (102, 10%Z, 5%Z); (102.5, 10%Z, 6%Z);
       (103, 40%Z, 7%Z); (103.5, 20%Z, 8%Z); (104, 10%Z, 9%Z);
       (100.2, 110%Z, 10%Z)].

Definition scenario_nodes_calculator : VolumeProfileCalculator.t :=
  VolumeProfileCalculator.mk 4 70 [("RELIANCE", nodes_ticks)] [].




(** * Verification *)

(** ** Booleans and rationals *)

Lemma Qlt_bool_iff (a b : Q) : Qlt_bool a b = true <-> a < b.
Proof.
  unfold Qlt_bool. rewrite negb_true_iff.
  split; intro H.
  - apply Qnot_le_lt. intro L. apply Qle_bool_iff in L. congruence.
  - destruct (Qle_bool b a) eqn:E; [|reflexivity].
    apply Qle_bool_iff in E. exfalso. exact (Qlt_not_le _ _ H E).
Qed.

Lemma Qlt_bool_false_iff (a b : Q) : Qlt_bool a b = false <-> b <= a.
Proof.
  unfold Qlt_bool. rewrite negb_false_iff. apply Qle_bool_iff.
Qed.

Lemma Qle_bool_false_iff (a b : Q) : Qle_bool a b = false <-> b < a.
Proof.
  rewrite <- Qlt_bool_iff. unfold Qlt_bool.
  destruct (Qle_bool a b); simpl; intuition congruence.
Qed.

Lemma Qle_bool_compat (a b a' b' : Q) :
  a == a' -> b == b' -> Qle_bool a b = Qle_bool a' b'.
Proof. intros Ha Hb. rewrite Ha, Hb. reflexivity. Qed.

(** ** Signal confidence *)

Lemma confidence_range vp_data entry_price volume_ratio near_hvn near_lvn distance :
  Qle_bool 0 (_calculate_signal_confidence vp_data entry_price volume_ratio
                near_hvn near_lvn distance) = true
  /\ Qle_bool (_calculate_signal_confidence vp_data entry_price volume_ratio
                 near_hvn near_lvn distance) 1 = true.
Proof.
  unfold _calculate_signal_confidence.
  destruct (Qle_bool 2 volume_ratio), (Qle_bool 1.5 volume_ratio),
    (Qle_bool 1 volume_ratio), (Qle_bool 2 distance), (Qle_bool 1.5 distance),
    (Qle_bool 1 distance), near_hvn, near_lvn,
    (Qle_bool 2 (VolumeProfileData.poc_strength vp_data)),
    (Qle_bool 1.5 (VolumeProfileData.poc_strength vp_data));
    split; vm_compute; reflexivity.
Qed.

(** C10.  The confidence score lies in [0,1], and it is a function of the
    numeric values of the volume ratio, the distance from the POC, the two
    node flags and the profile's POC strength alone: calls that agree on
    them return the same score, whatever the entry price and the rest of
    the profile. *)
Theorem confidence_unit_interval_deterministic :
  forall vp_data entry_price volume_ratio near_hvn near_lvn distance,
    (0 <= _calculate_signal_confidence vp_data entry_price volume_ratio
            near_hvn near_lvn distance
     /\ _calculate_signal_confidence vp_data entry_price volume_ratio
          near_hvn near_lvn distance <= 1)
    /\ forall vp_data' entry_price' volume_ratio' distance',
         volume_ratio == volume_ratio' ->
         distance == distance' ->
         VolumeProfileData.poc_strength vp_data == VolumeProfileData.poc_strength vp_data' ->
         _calculate_signal_confidence vp_data entry_price volume_ratio
           near_hvn near_lvn distance
         = _calculate_signal_confidence vp_data' entry_price' volume_ratio'
             near_hvn near_lvn distance'.
Proof.
  intros vp e vr nh nl d. split.
  - destruct (confidence_range vp e vr nh nl d) as [L U].
    split; apply Qle_bool_iff; assumption.
  - intros vp' e' vr' d' Hvr Hd Hs.
    unfold _calculate_signal_confidence.
    rewrite !(Qle_bool_compat _ vr _ vr' (Qeq_refl _) Hvr).
    rewrite !(Qle_bool_compat _ d _ d' (Qeq_refl _) Hd).
    rewrite !(Qle_bool_compat _ (VolumeProfileData.poc_strength vp) _
                (VolumeProfileData.poc_strength vp') (Qeq_refl _) Hs).
    reflexivity.
Qed.

(** The score at the strongest inputs of the table, and a use of the
    agreement clause at two representations of the same numbers. *)
Lemma confidence_unit_interval_deterministic_witness :
  _calculate_signal_confidence
    (VolumeProfileData.mk "RELIANCE" 100 110 90 120 80 1000 700 [] [] [] []
       (4 # 2) 20 20 0 0 0 10)
    105 (3 # 2) true false (2 # 1)
  = _calculate_signal_confidence
      (VolumeProfileData.mk "TCS" 50 60 40 70 30 10 7 [] [] [] []
         2 20 40 0 0 0 10)
      55 (6 # 4) true false (4 # 2).
Proof.
  apply (proj2 (confidence_unit_interval_deterministic _ _ _ _ _ _));
    reflexivity.
Defined.

(** ** Trailing stops *)

Section TrailingStop.
Variable cfg : Config.t.

Lemma flt_trans (a b c : pyfloat) : flt a b = true -> flt b c = true -> flt a c = true.
Proof.
  destruct a, b, c; simpl; try congruence.
  rewrite !Qlt_bool_iff. apply Qlt_trans.
Qed.

Lemma never_lower_refl (a : pyfloat) : never_lower a a.
Proof. left; reflexivity. Qed.

Lemma never_lower_trans (a b c : pyfloat) :
  never_lower a b -> never_lower b c -> never_lower a c.
Proof.
  intros [-> | Hab] [-> | Hbc]; unfold never_lower; auto.
  right. eapply flt_trans; eassumption.
Qed.

Lemma update_trailing_stop_side (p : Position.t) (price : Q) :
  Position.signal_type (_update_trailing_stop cfg p price) = Position.signal_type p.
Proof.
  unfold _update_trailing_stop.
  destruct (Position.signal_type p) eqn:E;
    match goal with |- context [if ?c then _ else _] => destruct c end;
    simpl; auto.
Qed.

Lemma track_position_side (p : Position.t) (price : Q) :
  Position.signal_type (track_position cfg p price) = Position.signal_type p.
Proof.
  unfold track_position.
  destruct (Config.enable_trailing_stops cfg);
    [rewrite update_trailing_stop_side|];
    unfold Position.update_price_extremes;
    destruct (Position.signal_type p); reflexivity.
Qed.

(** One call of [_update_trailing_stop] on a long position: the candidate is
    adopted exactly when it is strictly above the current stop. *)
Lemma update_trailing_stop_long (p : Position.t) (price : Q) :
  Position.signal_type p = LONG ->
  let candidate :=
    Fin (Position.highest_price p * (1 - Config.trailing_stop_pct cfg / 100)) in
  Position.current_stop_loss (_update_trailing_stop cfg p price)
  = if flt (Position.current_stop_loss p) candidate
    then candidate else Position.current_stop_loss p.
Proof.
  intros E candidate. unfold _update_trailing_stop. rewrite E. fold candidate.
  destruct (flt (Position.current_stop_loss p) candidate); reflexivity.
Qed.

Lemma update_trailing_stop_short (p : Position.t) (price : Q) :
  Position.signal_type p = SHORT ->
  let candidate :=
    fmul (Position.lowest_price p) (1 + Config.trailing_stop_pct cfg / 100) in
  Position.current_stop_loss (_update_trailing_stop cfg p price)
  = if flt candidate (Position.current_stop_loss p)
    then candidate else Position.current_stop_loss p.
Proof.
  intros E candidate. unfold _update_trailing_stop. rewrite E. fold candidate.
  destruct (flt candidate (Position.current_stop_loss p)); reflexivity.
Qed.

Lemma update_price_extremes_stop (p : Position.t) (price : Q) :
  Position.current_stop_loss (Position.update_price_extremes p price)
  = Position.current_stop_loss p.
Proof.
  unfold Position.update_price_extremes.
  destruct (Position.signal_type p); reflexivity.
Qed.

Lemma update_price_extremes_side (p : Position.t) (price : Q) :
  Position.signal_type (Position.update_price_extremes p price)
  = Position.signal_type p.
Proof.
  unfold Position.update_price_extremes.
  destruct (Position.signal_type p); reflexivity.
Qed.

Lemma update_trailing_stop_tightens (p : Position.t) (price : Q) :
  stop_tightened p (_update_trailing_stop cfg p price).
Proof.
  unfold stop_tightened.
  destruct (Position.signal_type p) eqn:E.
  - rewrite (update_trailing_stop_long p price E).
    destruct (flt _ _) eqn:F; [right; exact F | left; reflexivity].
  - rewrite (update_trailing_stop_short p price E).
    destruct (flt _ _) eqn:F; [right; exact F | left; reflexivity].
Qed.

Lemma track_position_tightens (p : Position.t) (price : Q) :
  stop_tightened p (track_position cfg p price).
Proof.
  unfold track_position.
  set (q := Position.set_unrealized_pnl (Position.update_price_extremes p price) _).
  assert (Hs : Position.signal_type q = Position.signal_type p)
    by (unfold q; simpl; apply update_price_extremes_side).
  assert (Hc : Position.current_stop_loss q = Position.current_stop_loss p)
    by (unfold q; simpl; apply update_price_extremes_stop).
  destruct (Config.enable_trailing_stops cfg).
  - pose proof (update_trailing_stop_tightens q price) as H.
    unfold stop_tightened in *. rewrite Hs, Hc in H. exact H.
  - unfold stop_tightened. rewrite Hc.
    destruct (Position.signal_type p); apply never_lower_refl.
Qed.

Lemma track_ticks_tightens (prices : list Q) :
  forall p, stop_tightened p (track_ticks cfg p prices).
Proof.
  induction prices as [|price rest IH]; intro p; simpl.
  - unfold stop_tightened. destruct (Position.signal_type p); apply never_lower_refl.
  - pose proof (track_position_tightens p price) as H1.
    pose proof (IH (track_position cfg p price)) as H2.
    unfold track_ticks in *. unfold stop_tightened in *.
    rewrite track_position_side in H2.
    destruct (Position.signal_type p); eapply never_lower_trans; eassumption.
Qed.

End TrailingStop.

(** C8.  The trailing stop never loosens.  One update of a long position
    adopts the candidate [highest * (1 - trailing_stop_pct/100)] exactly
    when it is strictly above the current stop, and one update of a short
    position adopts [lowest * (1 + trailing_stop_pct/100)] exactly when it
    is strictly below; over any sequence of tracked ticks the stop of a
    long position ends where it was or higher, the stop of a short position
    where it was or lower. *)
Theorem trailing_stop_never_loosens :
  forall (cfg : Config.t) (p : Position.t) (price : Q) (prices : list Q),
    match Position.signal_type p with
    | LONG =>
      let candidate :=
        Fin (Position.highest_price p * (1 - Config.trailing_stop_pct cfg / 100)) in
      Position.current_stop_loss (_update_trailing_stop cfg p price)
      = (if flt (Position.current_stop_loss p) candidate
         then candidate else Position.current_stop_loss p)
      /\ never_lower (Position.current_stop_loss p)
           (Position.current_stop_loss (track_ticks cfg p prices))
    | SHORT =>
      let candidate :=
        fmul (Position.lowest_price p) (1 + Config.trailing_stop_pct cfg / 100) in
      Position.current_stop_loss (_update_trailing_stop cfg p price)
      = (if flt candidate (Position.current_stop_loss p)
         then candidate else Position.current_stop_loss p)
      /\ never_lower (Position.current_stop_loss (track_ticks cfg p prices))
           (Position.current_stop_loss p)
    end.
Proof.
  intros cfg p price prices.
  pose proof (track_ticks_tightens cfg prices p) as H.
  unfold stop_tightened in H.
  destruct (Position.signal_type p) eqn:E; split; auto.
  - apply update_trailing_stop_long; assumption.
  - apply update_trailing_stop_short; assumption.
Qed.

(** ** Dictionaries keyed by strings *)

Lemma sget_sset_same {V : Type} (d : str_dict V) (k : string) (v : V) :
  sget (sset d k v) k = Some v.
Proof.
  unfold sget, sset.
  induction d as [|[k' v'] r IH]; simpl.
  - rewrite String.eqb_refl. reflexivity.
  - destruct (String.eqb k' k) eqn:E; simpl; rewrite E; auto.
Qed.

Lemma sget_sset_other {V : Type} (d : str_dict V) (k k' : string) (v : V) :
  k <> k' -> sget (sset d k v) k' = sget d k'.
Proof.
  intro N. unfold sget, sset.
  induction d as [|[k0 v0] r IH]; simpl.
  - destruct (String.eqb k k') eqn:E; [apply String.eqb_eq in E; contradiction | reflexivity].
  - destruct (String.eqb k0 k) eqn:E; simpl.
    + apply String.eqb_eq in E. subst k0.
      destruct (String.eqb k k') eqn:E'; [apply String.eqb_eq in E'; contradiction | reflexivity].
    + destruct (String.eqb k0 k'); auto.
Qed.

Lemma smem_sset_same {V : Type} (d : str_dict V) (k : string) (v : V) :
  smem (sset d k v) k = true.
Proof.
  unfold smem, PyDict.mem. fold (@sget V). fold (@sset V).
  rewrite sget_sset_same. reflexivity.
Qed.

Lemma smem_sget {V : Type} (d : str_dict V) (k : string) :
  smem d k = match sget d k with Some _ => true | None => false end.
Proof. reflexivity. Qed.

(** ** Breakout detection *)

Section Breakout.







End Breakout.



(** ** Position sizing and opening *)










(** ** The factory helpers and the attribute names *)

Lemma low_volume_nodes_undeclared :
  hasattr VolumeProfileData.fields "low_volume_nodes" = false
  /\ hasattr VolumeProfileData.fields "lvn_levels" = true.
Proof. split; reflexivity. Qed.

(** [VolumeProfileSignal] declares no [poc]: [create_position_from_signal]
    raises for every signal. *)
Lemma create_position_from_signal_raises (signal : VolumeProfileSignal.t)
    (quantity : Z) (order_id : string) :
  create_position_from_signal signal quantity order_id = None.
Proof.
  unfold create_position_from_signal, VolumeProfileSignal_attrs.
  destruct (VolumeProfileSignal.risk_reward_ratio signal); reflexivity.
Qed.

(** [Position] declares [vp_poc], not [poc]:
    [create_trade_result_from_position] raises for every position. *)
Lemma create_trade_result_from_position_raises (position : Position.t)
    (exit_price : Q) (exit_reason breakout_type : string) (commission : Q) (now : Z) :
  create_trade_result_from_position position exit_price exit_reason breakout_type
    commission now = None.
Proof. reflexivity. Qed.

(** Consequently [_execute_signal] opens no position, whatever the signal. *)
Lemma execute_signal_opens_nothing (self : Strategy.t) (signal : VolumeProfileSignal.t)
    (now : Z) :
  _execute_signal self signal now = (self, false).
Proof.
  unfold _execute_signal.
  rewrite create_position_from_signal_raises.
  repeat match goal with |- context [if ?c then _ else _] => destruct c end;
    reflexivity.
Qed.

(** ** Monitoring and closing positions *)

Lemma close_position_changes_nothing (self : Strategy.t)
    (symbol reason breakout_type : string) (now : Z) :
  _close_position self symbol reason breakout_type now = self.
Proof.
  unfold _close_position.
  destruct (sget (positions self) symbol); [|reflexivity].
  destruct (sget (live_quotes self) symbol); [|reflexivity].
  rewrite create_trade_result_from_position_raises. reflexivity.
Qed.

Lemma monitor_positions_changes_nothing (self : Strategy.t) (now : Z) :
  monitor_positions self now = self.
Proof.
  unfold monitor_positions.
  induction (positions_to_close self (positions self)) as [|[[symbol reason] bt] rest IH];
    simpl; [reflexivity|].
  rewrite close_position_changes_nothing. exact IH.
Qed.


(** C7 at a failing input.  A long position with stop 90 and a last quote of
    89: the monitoring step selects the position for a STOP_LOSS exit, and
    then leaves it open and records no trade, because
    [create_trade_result_from_position] reads [position.poc]. *)
Lemma monitor_positions_keeps_stopped_position :
  positions_to_close stopped_strategy (positions stopped_strategy)
  = [("RELIANCE", "STOP_LOSS", "VAH_BREAKOUT")]
  /\ smem (positions (monitor_positions stopped_strategy 60)) "RELIANCE" = true
  /\ completed_trades (monitor_positions stopped_strategy 60) = [].
Proof. repeat split; reflexivity. Qed.

(** ** Scanning detected breakouts *)

Lemma execute_signal_frame (self : Strategy.t) (signal : VolumeProfileSignal.t) (now : Z) :
  same_market_view (fst (_execute_signal self signal now)) self.
Proof.
  unfold _execute_signal, same_market_view.
  destruct (Qle_bool _ 0); [simpl; auto|].
  destruct (_ <=? 0)%Z; [simpl; auto|].
  destruct (create_position_from_signal _ _ _); simpl; auto.
Qed.

Lemma execute_signals_frame (signals : list VolumeProfileSignal.t) (now : Z) :
  forall self, same_market_view (execute_signals self signals now) self.
Proof.
  induction signals as [|signal rest IH]; intro self; simpl.
  - repeat split.
  - destruct (Qle_bool _ _); [|apply IH].
    destruct (IH (fst (_execute_signal self signal now))) as (A & B & C).
    destruct (execute_signal_frame self signal now) as (A' & B' & C').
    repeat split; congruence.
Qed.

Lemma scan_frame (self : Strategy.t) (now : Z) :
  same_market_view (scan_for_breakout_signals self now) self.
Proof.
  unfold scan_for_breakout_signals.
  destruct (breakout_detected self) eqn:E; [repeat split|].
  apply execute_signals_frame.
Qed.

(** The signals a scan collects are the evaluations of its candidates. *)
Lemma collect_signals_candidates (self : Strategy.t) (now : Z)
    (detected : list (string * string)) :
  collect_signals self detected now
  = flat_map (evaluate_detected self now)
      (filter (fun sb =>
                 negb (smem (positions self) (fst sb))
                 && match sget (live_quotes self) (fst sb),
                          sget (volume_profiles self) (fst sb) with
                    | Some _, Some _ => true
                    | _, _ => false
                    end)
              detected).
Proof.
  induction detected as [|[symbol kind] rest IH]; [reflexivity|].
  cbn [collect_signals filter fst]. rewrite IH.
  destruct (smem (positions self) symbol); [reflexivity|].
  cbn [negb andb].
  destruct (sget (live_quotes self) symbol) as [q|] eqn:Q; [|reflexivity].
  destruct (sget (volume_profiles self) symbol) as [vp|] eqn:P; [|reflexivity].
  cbn [flat_map].
  assert (E : evaluate_detected self now (symbol, kind)
              = match _evaluate_breakout_signal self symbol kind q vp now with
                | Some signal => [signal]
                | None => []
                end)
    by (unfold evaluate_detected; cbn [fst snd]; rewrite Q, P; reflexivity).
  rewrite E.
  destruct (_evaluate_breakout_signal self symbol kind q vp now); reflexivity.
Qed.

(** C2 (amended).  A scan removes nothing from the detected breakouts: after
    it the dict is what it was before, whether or not a signal was produced
    or executed; and a breakout the scan evaluated is evaluated again by the
    next scan unless the instrument now has an open position. *)
Theorem scan_keeps_detected_breakouts :
  forall (self : Strategy.t) (now : Z),
    breakout_detected (scan_for_breakout_signals self now) = breakout_detected self
    /\ forall sb,
         In sb (scan_candidates self) ->
         smem (positions (scan_for_breakout_signals self now)) (fst sb) = false ->
         In sb (scan_candidates (scan_for_breakout_signals self now)).
Proof.
  intros self now.
  destruct (scan_frame self now) as (B & Q & P).
  split; [exact B|].
  intros sb I M. unfold scan_candidates in *.
  rewrite B, Q, P. apply filter_In in I. destruct I as [I F].
  apply filter_In. split; [exact I|].
  rewrite M. simpl.
  apply andb_prop in F. exact (proj2 F).
Qed.

(** The rejected breakout of [rejected_strategy] stays a candidate. *)
Lemma scan_keeps_detected_breakouts_witness :
  In ("RELIANCE", "VAH")
     (scan_candidates (scan_for_breakout_signals rejected_strategy 0)).
Proof.
  apply (proj2 (scan_keeps_detected_breakouts rejected_strategy 0) ("RELIANCE", "VAH"));
    [left; reflexivity | reflexivity].
Defined.

(** C2, as stated, fails: the VAH breakout of [rejected_strategy] is
    evaluated by the scan, rejected (too close to the POC), and is still
    among the detected breakouts afterwards. *)
Lemma rejected_breakout_is_not_consumed :
  scan_candidates rejected_strategy = [("RELIANCE", "VAH")]
  /\ _evaluate_breakout_signal rejected_strategy "RELIANCE" "VAH"
       (sample_quote 100.5) sample_profile 0 = None
  /\ smem (breakout_detected (scan_for_breakout_signals rejected_strategy 0))
          "RELIANCE" = true.
Proof. repeat split; reflexivity. Qed.

(** ** Lists: minimum, maximum, first maximum, sums, sorted lists *)

Lemma py_min2_le_l (a b : Q) : py_min2 a b <= a.
Proof.
  unfold py_min2. destruct (Qlt_bool b a) eqn:E.
  - apply Qlt_le_weak, Qlt_bool_iff, E.
  - apply Qle_refl.
Qed.

Lemma py_min2_le_r (a b : Q) : py_min2 a b <= b.
Proof.
  unfold py_min2. destruct (Qlt_bool b a) eqn:E.
  - apply Qle_refl.
  - apply Qlt_bool_false_iff, E.
Qed.

Lemma py_max2_ge_l (a b : Q) : a <= py_max2 a b.
Proof.
  unfold py_max2. destruct (Qlt_bool a b) eqn:E.
  - apply Qlt_le_weak, Qlt_bool_iff, E.
  - apply Qle_refl.
Qed.

Lemma py_max2_ge_r (a b : Q) : b <= py_max2 a b.
Proof.
  unfold py_max2. destruct (Qlt_bool a b) eqn:E.
  - apply Qle_refl.
  - apply Qlt_bool_false_iff, E.
Qed.





Section FirstMax.
Context {A : Type} (key : A -> Z).

Lemma fold_keep_larger (r : list A) :
  forall x, first_max key (x :: r) (fold_left (keep_larger key) r x).
Proof.
  induction r as [|y r IH]; intro x; simpl.
  - exists [], []. repeat split; constructor.
  - unfold keep_larger at 2.
    destruct (key x <? key y)%Z eqn:E.
    + apply Z.ltb_lt in E.
      destruct (IH y) as (l1 & l2 & D & B & F).
      remember (fold_left (keep_larger key) r y) as m eqn:Em. clear Em IH.
      exists (x :: l1), l2. split; [simpl; rewrite <- D; reflexivity|].
      split; [|exact F].
      constructor; [|exact B].
      destruct l1 as [|z l1]; simpl in D; injection D as D1 D2.
      * rewrite <- D1. exact E.
      * rewrite <- D1 in B. inversion B; subst. lia.
    + apply Z.ltb_ge in E.
      destruct (IH x) as (l1 & l2 & D & B & F).
      remember (fold_left (keep_larger key) r x) as m eqn:Em. clear Em IH.
      destruct l1 as [|z l1]; simpl in D; injection D as D1 D2.
      * exists [], (y :: r). rewrite <- D1.
        split; [reflexivity|]. split; [constructor|].
        rewrite <- D1 in F. rewrite D2.
        constructor; [exact E | exact F].
      * exists (z :: y :: l1), l2. rewrite D2, <- D1.
        split; [reflexivity|]. split; [|exact F].
        rewrite <- D1 in B. inversion B; subst.
        constructor; [assumption|]. constructor; [lia | assumption].
Qed.

Lemma py_max_by_first_max (xs : list A) (m : A) :
  py_max_by key xs = Some m -> first_max key xs m.
Proof.
  destruct xs as [|x r]; simpl; [discriminate|].
  intros [= <-]. apply fold_keep_larger.
Qed.

End FirstMax.

Lemma fold_add_shift (l : list Z) : forall a, fold_left Z.add l a = (a + fold_left Z.add l 0)%Z.
Proof.
  induction l as [|x l IH]; intro a; simpl; [lia|].
  rewrite (IH (a + x)%Z), (IH x). lia.
Qed.

Lemma py_sum_cons (x : Z) (l : list Z) : py_sum (x :: l) = (x + py_sum l)%Z.
Proof. unfold py_sum. simpl. apply fold_add_shift. Qed.

Lemma py_sum_app (l1 l2 : list Z) : py_sum (l1 ++ l2) = (py_sum l1 + py_sum l2)%Z.
Proof.
  induction l1 as [|x l1 IH]; simpl; [reflexivity|].
  rewrite !py_sum_cons, IH. lia.
Qed.

Lemma py_sum_permutation (l1 l2 : list Z) : Permutation l1 l2 -> py_sum l1 = py_sum l2.
Proof.
  induction 1; rewrite ?py_sum_cons; lia.
Qed.

Lemma py_sorted_sorted (xs : list Q) : StronglySorted Qle (py_sorted xs).
Proof.
  assert (T : Relations_1.Transitive (fun a b : Q => is_true (Qle_bool a b))).
  { intros a b c H1 H2. unfold is_true in *. rewrite Qle_bool_iff in *.
    eapply Qle_trans; eassumption. }
  pose proof (QSort.StronglySorted_sort xs T) as S.
  unfold py_sorted.
  induction S as [|a l S IH F]; constructor; auto.
  eapply Forall_impl; [|exact F]. intros b Hb. apply Qle_bool_iff. exact Hb.
Qed.

Lemma py_sorted_permutation (xs : list Q) : Permutation xs (py_sorted xs).
Proof. apply QSort.Permuted_sort. Qed.

Lemma sorted_nth_le (l : list Q) :
  StronglySorted Qle l ->
  forall i j a b, (i <= j)%nat -> nth_error l i = Some a -> nth_error l j = Some b -> a <= b.
Proof.
  induction 1 as [|x l S IH F]; intros i j a b L Ha Hb.
  - destruct i; discriminate.
  - destruct i as [|i], j as [|j]; simpl in *; try lia.
    + injection Ha as <-. injection Hb as <-. apply Qle_refl.
    + injection Ha as <-. apply nth_error_In in Hb.
      rewrite Forall_forall in F. apply F, Hb.
    + apply (IH i j); auto; lia.
Qed.

(** ** Volume dictionaries *)

Lemma Qeq_bool_sym (a b : Q) : Qeq_bool a b = Qeq_bool b a.
Proof.
  destruct (Qeq_bool a b) eqn:E1, (Qeq_bool b a) eqn:E2; auto.
  - apply Qeq_bool_iff in E1. symmetry in E1. apply Qeq_bool_iff in E1. congruence.
  - apply Qeq_bool_iff in E2. symmetry in E2. apply Qeq_bool_iff in E2. congruence.
Qed.

Lemma Qeq_bool_compat_l (a b q : Q) : Qeq_bool a b = true -> Qeq_bool a q = Qeq_bool b q.
Proof.
  intro E. apply Qeq_bool_iff in E.
  destruct (Qeq_bool a q) eqn:E1, (Qeq_bool b q) eqn:E2; auto.
  - apply Qeq_bool_iff in E1. rewrite E in E1. apply Qeq_bool_iff in E1. congruence.
  - apply Qeq_bool_iff in E2. rewrite <- E in E2. apply Qeq_bool_iff in E2. congruence.
Qed.

Lemma get_set (d : volume_dict) (k q : Q) (v : Z) :
  PyDict.get Qeq_bool (PyDict.set Qeq_bool d k v) q
  = if Qeq_bool k q then Some v else PyDict.get Qeq_bool d q.
Proof.
  induction d as [|[k' v'] r IH]; simpl; [reflexivity|].
  destruct (Qeq_bool k' k) eqn:E; simpl.
  - rewrite (Qeq_bool_compat_l k' k q E).
    destruct (Qeq_bool k q); reflexivity.
  - rewrite IH.
    destruct (Qeq_bool k' q) eqn:E1, (Qeq_bool k q) eqn:E2; auto.
    apply Qeq_bool_iff in E1, E2.
    assert (X : Qeq_bool k' k = true) by (apply Qeq_bool_iff; rewrite E1, E2; reflexivity).
    congruence.
Qed.

Lemma get_none_keys (d : volume_dict) (k : Q) :
  PyDict.get Qeq_bool d k = None <->
  forall k', In k' (PyDict.keys d) -> Qeq_bool k' k = false.
Proof.
  induction d as [|[k0 v0] r IH]; simpl.
  - split; [intros _ k' [] | reflexivity].
  - destruct (Qeq_bool k0 k) eqn:E.
    + split; [discriminate|]. intro H. specialize (H k0 (or_introl eq_refl)). congruence.
    + rewrite IH. split.
      * intros H k' [<- | I]; auto.
      * intros H k' I. apply H. right. exact I.
Qed.

Lemma set_keys_distinct (d : volume_dict) (k : Q) (v : Z) :
  distinct_keys d = true -> distinct_keys (PyDict.set Qeq_bool d k v) = true.
Proof.
  induction d as [|[k0 v0] r IH]; simpl; [reflexivity|].
  destruct (PyDict.get Qeq_bool r k0) eqn:G; [discriminate|]. intro D.
  destruct (Qeq_bool k0 k) eqn:E; simpl.
  - rewrite G. exact D.
  - rewrite get_set, Qeq_bool_sym, E, G. apply IH, D.
Qed.

Lemma volume_at_nonneg (d : volume_dict) (k : Q) :
  nonneg_volumes d -> (0 <= volume_at d k)%Z.
Proof.
  unfold volume_at, nonneg_volumes.
  induction 1 as [|[k0 v0] r H F IH]; simpl; [lia|].
  destruct (Qeq_bool k0 k); [exact H | exact IH].
Qed.

Lemma set_nonneg (d : volume_dict) (k : Q) (v : Z) :
  nonneg_volumes d -> (0 <= v)%Z -> nonneg_volumes (PyDict.set Qeq_bool d k v).
Proof.
  unfold nonneg_volumes. intros F Hv.
  induction F as [|[k0 v0] r H F IH]; simpl.
  - constructor; [exact Hv | constructor].
  - destruct (Qeq_bool k0 k); constructor; auto.
Qed.

Lemma volume_at_compat (d : volume_dict) (k k' : Q) :
  k == k' -> volume_at d k = volume_at d k'.
Proof.
  intro E. unfold volume_at.
  induction d as [|[k0 v0] r IH]; simpl; [reflexivity|].
  rewrite (Qeq_bool_sym k0 k), (Qeq_bool_sym k0 k').
  apply Qeq_bool_iff in E. rewrite (Qeq_bool_compat_l k k' k0 E).
  destruct (Qeq_bool k' k0); [reflexivity | exact IH].
Qed.

(** With distinct keys, reading every key gives back the values. *)
Lemma volumes_of_keys (d : volume_dict) :
  distinct_keys d = true ->
  map (volume_at d) (PyDict.keys d) = PyDict.values d.
Proof.
  induction d as [|[k0 v0] r IH]; simpl; [reflexivity|].
  destruct (PyDict.get Qeq_bool r k0) eqn:G; [discriminate|]. intro D.
  unfold volume_at at 1. simpl. rewrite Qeq_bool_refl. f_equal.
  rewrite <- (IH D). apply map_ext_in. intros k I.
  unfold volume_at. simpl.
  rewrite get_none_keys in G. rewrite Qeq_bool_sym, (G k I). reflexivity.
Qed.

Lemma sorted_volumes_total (d : volume_dict) :
  distinct_keys d = true ->
  py_sum (map (volume_at d) (py_sorted (PyDict.keys d))) = py_sum (PyDict.values d).
Proof.
  intro D. rewrite <- (volumes_of_keys d D).
  apply py_sum_permutation, Permutation_map, Permutation_sym, py_sorted_permutation.
Qed.

Lemma list_index_some (l : list Q) (x : Q) (i : nat) :
  list_index l x = Some i -> exists y, nth_error l i = Some y /\ y == x.
Proof.
  revert i. induction l as [|y r IH]; simpl; intro i; [discriminate|].
  destruct (Qeq_bool y x) eqn:E.
  - intros [= <-]. exists y. split; [reflexivity | apply Qeq_bool_iff, E].
  - destruct (list_index r x) as [j|]; [|discriminate].
    intros [= <-]. simpl. apply IH. reflexivity.
Qed.

Lemma list_index_found (l : list Q) (x y : Q) :
  In y l -> y == x -> exists i, list_index l x = Some i.
Proof.
  induction l as [|z r IH]; simpl; intros I E; [contradiction|].
  destruct (Qeq_bool z x) eqn:F; [eexists; reflexivity|].
  destruct I as [-> | I].
  - apply Qeq_bool_iff in E. congruence.
  - destruct (IH I E) as [i ->]. eexists; reflexivity.
Qed.

Lemma mem_key (d : volume_dict) (k : Q) :
  PyDict.mem Qeq_bool d k = true -> exists k', In k' (PyDict.keys d) /\ k' == k.
Proof.
  unfold PyDict.mem.
  induction d as [|[k0 v0] r IH]; simpl; [discriminate|].
  destruct (Qeq_bool k0 k) eqn:E.
  - intros _. exists k0. split; [left; reflexivity | apply Qeq_bool_iff, E].
  - intro H. destruct (IH H) as (k' & I & E'). exists k'. auto.
Qed.

(** ** Value-area expansion *)

Section Expansion.
Variables (d : volume_dict) (sorted_prices : list Q) (target : Q).

Local Abbreviation len := (List.length sorted_prices).
Local Abbreviation expand := (fun fuel => expand_value_area fuel d sorted_prices target).

Lemma skipn_price_at (n : nat) :
  (n < len)%nat ->
  skipn n sorted_prices = price_at sorted_prices n :: skipn (S n) sorted_prices.
Proof.
  unfold price_at. revert n.
  induction sorted_prices as [|x l IH]; intros n H; simpl in *; [lia|].
  destruct n as [|n]; [reflexivity|]. apply IH. lia.
Qed.

Lemma firstn_price_at (n : nat) :
  (n < len)%nat ->
  firstn (S n) sorted_prices = firstn n sorted_prices ++ [price_at sorted_prices n].
Proof.
  unfold price_at. revert n.
  induction sorted_prices as [|x l IH]; intros n H; simpl in *; [lia|].
  destruct n as [|n]; [reflexivity|]. simpl. f_equal. apply IH. lia.
Qed.

Lemma volume_above_step (u : nat) :
  (u + 1 < len)%nat ->
  volume_above d sorted_prices u
  = (volume_at d (price_at sorted_prices (u + 1))
     + volume_above d sorted_prices (u + 1))%Z.
Proof.
  intro H. unfold volume_above.
  rewrite (skipn_price_at (S u)) by lia. simpl map. rewrite py_sum_cons.
  replace (u + 1)%nat with (S u) by lia. reflexivity.
Qed.

Lemma volume_below_step (l : nat) :
  (0 < l)%nat -> (l <= len)%nat ->
  volume_below d sorted_prices l
  = (volume_below d sorted_prices (l - 1)
     + volume_at d (price_at sorted_prices (l - 1)))%Z.
Proof.
  intros H0 H. unfold volume_below.
  replace l with (S (l - 1)) at 1 by lia.
  rewrite firstn_price_at by lia.
  rewrite map_app, py_sum_app. simpl map. rewrite py_sum_cons.
  change (py_sum []) with 0%Z. lia.
Qed.



(** With [len] iterations at hand the loop always ends by itself. *)
Lemma expand_total (fuel : nat) :
  forall (u l : nat) (acc : Z),
    (u < len)%nat -> (len - 1 - u + l < fuel)%nat ->
    exists r, expand fuel u l acc = Some r.
Proof.
  induction fuel as [|fuel IH]; intros u l acc Hu Hf; [lia|].
  simpl.
  destruct (Qlt_bool (inject_Z acc) target); [|eexists; reflexivity].
  destruct (u <? len - 1)%nat eqn:U, (0 <? l)%nat eqn:L;
    rewrite ?andb_true_r, ?andb_false_r;
    try apply Nat.ltb_lt in U; try apply Nat.ltb_lt in L;
    repeat match goal with |- context [if ?c then _ else _] => destruct c end;
    try (eexists; reflexivity); apply IH; lia.
Qed.

(** What the loop returns: pointers that moved outward and stayed in
    range, the volume accounted for, and why it stopped. *)
Lemma expand_invariant (fuel : nat) :
  forall (u l : nat) (acc : Z) (u' l' : nat) (acc' : Z),
    (l <= u)%nat -> (u < len)%nat ->
    expand fuel u l acc = Some (u', l', acc') ->
    (l' <= l)%nat /\ (u <= u')%nat /\ (u' < len)%nat
    /\ (volume_below d sorted_prices l' + acc' + volume_above d sorted_prices u'
        = volume_below d sorted_prices l + acc + volume_above d sorted_prices u)%Z
    /\ (target <= inject_Z acc'
        \/ (l' = 0%nat
            /\ (u' = (len - 1)%nat
                \/ (volume_at d (price_at sorted_prices (u' + 1)) < 0)%Z))).
Proof.
  induction fuel as [|fuel IH]; intros u l acc u' l' acc' Hl Hu; simpl.
  - destruct (Qlt_bool (inject_Z acc) target) eqn:T; [discriminate|].
    intros [= <- <- <-]. repeat split; try lia.
    left. apply Qlt_bool_false_iff, T.
  - destruct (Qlt_bool (inject_Z acc) target) eqn:T.
    2:{ intros [= <- <- <-]. repeat split; try lia.
        left. apply Qlt_bool_false_iff, T. }
    destruct (u <? len - 1)%nat eqn:U.
    + apply Nat.ltb_lt in U.
      destruct (0 <? l)%nat eqn:L.
      * apply Nat.ltb_lt in L. rewrite andb_true_r.
        destruct (_ <=? _)%Z.
        -- intro E. apply IH in E; try lia.
           destruct E as (A & B & C & S & R).
           rewrite (volume_above_step u) by lia.
           repeat split; try lia. exact R.
        -- intro E. apply IH in E; try lia.
           destruct E as (A & B & C & S & R).
           rewrite (volume_below_step l) by lia.
           repeat split; try lia. exact R.
      * apply Nat.ltb_ge in L. rewrite andb_true_r.
        destruct (0 <=? _)%Z eqn:V.
        -- intro E. apply IH in E; try lia.
           destruct E as (A & B & C & S & R).
           rewrite (volume_above_step u) by lia.
           repeat split; try lia. exact R.
        -- intros [= <- <- <-]. apply Z.leb_gt in V.
           repeat split; lia.
    + apply Nat.ltb_ge in U. rewrite andb_false_r.
      destruct (0 <? l)%nat eqn:L.
      * apply Nat.ltb_lt in L.
        intro E. apply IH in E; try lia.
        destruct E as (A & B & C & S & R).
        rewrite (volume_below_step l) by lia.
        repeat split; try lia. exact R.
      * apply Nat.ltb_ge in L.
        intros [= <- <- <-]. repeat split; lia.
Qed.

End Expansion.

Lemma volume_split (d : volume_dict) (sorted_prices : list Q) (i : nat) :
  (i < List.length sorted_prices)%nat ->
  py_sum (map (volume_at d) sorted_prices)
  = (volume_below d sorted_prices i + volume_at d (price_at sorted_prices i)
     + volume_above d sorted_prices i)%Z.
Proof.
  intro H. unfold volume_below, volume_above.
  rewrite <- (firstn_skipn i sorted_prices) at 1.
  rewrite (skipn_price_at sorted_prices i H).
  rewrite map_app, py_sum_app. simpl map. rewrite py_sum_cons. lia.
Qed.



Lemma nth_error_price_at (sorted_prices : list Q) (i : nat) (y : Q) :
  nth_error sorted_prices i = Some y -> price_at sorted_prices i = y.
Proof. intro H. unfold price_at. apply nth_error_nth, H. Qed.

Lemma nth_error_in_range {A : Type} (l : list A) (i : nat) :
  (i < List.length l)%nat -> exists y, nth_error l i = Some y.
Proof.
  intro H. destruct (nth_error l i) eqn:E; [eexists; reflexivity|].
  apply nth_error_None in E. lia.
Qed.

(** [_calculate_value_area] on a dict that holds the POC: the [try] block
    succeeds, and its result is described by the expansion loop. *)
Lemma calculate_value_area_spec (self : VolumeProfileCalculator.t)
    (d : volume_dict) (poc : Q) (total : Z) :
  distinct_keys d = true ->
  PyDict.mem Qeq_bool d poc = true ->
  let sorted_prices := py_sorted (PyDict.keys d) in
  let target := inject_Z total * (value_area_pct self / 100) in
  exists (poc_idx upper lower : nat) (vav : Z) (vah val : Q),
    list_index sorted_prices poc = Some poc_idx
    /\ expand_value_area (List.length sorted_prices) d sorted_prices target
         poc_idx poc_idx (volume_at d poc) = Some (upper, lower, vav)
    /\ nth_error sorted_prices upper = Some vah
    /\ nth_error sorted_prices lower = Some val
    /\ _calculate_value_area self d poc total = Some (vah, val, vav)
    /\ (lower <= poc_idx <= upper)%nat
    /\ (val <= poc /\ poc <= vah)
    /\ (volume_below d sorted_prices lower + vav + volume_above d sorted_prices upper
        = py_sum (PyDict.values d))%Z
    /\ (target <= inject_Z vav
        \/ (lower = 0%nat
            /\ (upper = (List.length sorted_prices - 1)%nat
                \/ (volume_at d (price_at sorted_prices (upper + 1)) < 0)%Z))).
Proof.
  intros D M sp target.
  destruct (mem_key d poc M) as (k & Ik & Ek).
  assert (Isp : In k sp)
    by (eapply Permutation_in; [apply py_sorted_permutation | exact Ik]).
  destruct (list_index_found sp poc k Isp Ek) as [i Hi].
  destruct (list_index_some sp poc i Hi) as (y & Hy & Ey).
  assert (Li : (i < List.length sp)%nat)
    by (apply nth_error_Some; rewrite Hy; discriminate).
  destruct (expand_total d sp target (List.length sp) i i (volume_at d poc) Li)
    as [[[u l] acc] Hx]; [lia|].
  destruct (expand_invariant d sp target _ _ _ _ _ _ _ (Nat.le_refl i) Li Hx)
    as (A & B & C & S & R).
  destruct (nth_error_in_range sp u C) as [vah Hvah].
  destruct (nth_error_in_range sp l) as [val Hval]; [lia|].
  exists i, u, l, acc, vah, val.
  pose proof (py_sorted_sorted (PyDict.keys d)) as Sorted. fold sp in Sorted.
  repeat split; auto.
  - unfold _calculate_value_area. fold sp. fold target.
    rewrite Hi, Hx, Hvah, Hval. reflexivity.
  - rewrite <- Ey. exact (sorted_nth_le sp Sorted l i val y A Hval Hy).
  - rewrite <- Ey. exact (sorted_nth_le sp Sorted i u y vah B Hy Hvah).
  - rewrite S. rewrite <- (sorted_volumes_total d D). fold sp.
    rewrite (volume_split d sp i Li).
    rewrite (nth_error_price_at sp i y Hy), (volume_at_compat d y poc Ey).
    reflexivity.
Qed.




Example scenario_value_area :
  _calculate_value_area scenario_calculator scenario_volumes 3 1000
  = Some (5, 3, 800%Z).
Proof. reflexivity. Qed.

(** ** Bucketing *)

Lemma add_volume_invariants (d : volume_dict) (k : Q) (v : Z) :
  add_volume d k v <> []
  /\ (distinct_keys d = true -> distinct_keys (add_volume d k v) = true)
  /\ (nonneg_volumes d -> (0 <= v)%Z -> nonneg_volumes (add_volume d k v)).
Proof.
  unfold add_volume. repeat split.
  - destruct d as [|[k0 v0] r]; simpl; [discriminate|].
    destruct (Qeq_bool k0 k); discriminate.
  - apply set_keys_distinct.
  - intros N H. apply set_nonneg; [exact N|].
    pose proof (volume_at_nonneg d k N). lia.
Qed.

Lemma bucket_volumes_invariants (self : VolumeProfileCalculator.t)
    (price_min bucket_size : Q) (price_levels : list Q) (ticks : list LiveQuote.t) :
  forall d d',
    bucket_volumes self price_min bucket_size price_levels d ticks = Some d' ->
    (distinct_keys d = true -> distinct_keys d' = true)
    /\ (d <> [] \/ ticks <> [] -> d' <> [])
    /\ (nonneg_volumes d ->
        Forall (fun t => (0 <= LiveQuote.volume t)%Z) ticks ->
        nonneg_volumes d').
Proof.
  induction ticks as [|tick rest IH]; intros d d'; simpl.
  - intros [= <-]. repeat split; auto. intros [H | H]; [exact H | contradiction].
  - unfold add_tick_to_bucket.
    destruct (list_getitem price_levels _) as [bucket_price|]; [|discriminate].
    intro H. apply IH in H. destruct H as (D & E & N).
    destruct (add_volume_invariants d bucket_price (LiveQuote.volume tick))
      as (E0 & D0 & N0).
    repeat split.
    + intro Hd. apply D, D0, Hd.
    + intros _. apply E. left. exact E0.
    + intros Hn F. inversion F; subst. apply N; [apply N0|]; assumption.
Qed.

Lemma volume_at_entry (d : volume_dict) (k : Q) (v : Z) :
  distinct_keys d = true -> In (k, v) d -> volume_at d k = v.
Proof.
  unfold volume_at.
  induction d as [|[k0 v0] r IH]; simpl; [contradiction|].
  destruct (PyDict.get Qeq_bool r k0) eqn:G; [discriminate|].
  intros D [[= -> ->] | I].
  - rewrite Qeq_bool_refl. reflexivity.
  - rewrite get_none_keys in G.
    assert (Ik : In k (PyDict.keys r)) by (apply (in_map fst _ _ I)).
    rewrite Qeq_bool_sym, (G k Ik). apply IH; assumption.
Qed.

Lemma mem_entry (d : volume_dict) (k : Q) (v : Z) :
  In (k, v) d -> PyDict.mem Qeq_bool d k = true.
Proof.
  unfold PyDict.mem.
  induction d as [|[k0 v0] r IH]; simpl; [contradiction|].
  intros [[= -> ->] | I].
  - rewrite Qeq_bool_refl. reflexivity.
  - destruct (Qeq_bool k0 k); [reflexivity | apply IH, I].
Qed.

Lemma first_max_in {A : Type} (key : A -> Z) (xs : list A) (m : A) :
  first_max key xs m -> In m xs.
Proof.
  intros (l1 & l2 & -> & _). apply in_or_app. right. left. reflexivity.
Qed.

(** ** Profile construction *)

(** The steps a successful [build_profile] went through. *)
Lemma build_profile_steps (self : VolumeProfileCalculator.t) (symbol : string)
    (start_time end_time : option Z) (now : Z) (p : VolumeProfileData.t) :
  build_profile self symbol start_time end_time now = Some p ->
  exists (ticks : list LiveQuote.t) (price_min price_max : Q) (top : Q * Z)
         (vah val : Q) (vav : Z),
    let d := VolumeProfileData.volume_by_price p in
    ticks = window_ticks
              (match sget (tick_data self) symbol with Some l => l | None => [] end)
              start_time end_time
    /\ (10 <= List.length ticks)%nat
    /\ py_min (map LiveQuote.ltp ticks) = Some price_min
    /\ py_max (map LiveQuote.ltp ticks) = Some price_max
    /\ Qeq_bool (price_max - price_min) 0 = false
    /\ bucket_volumes self price_min
         ((price_max - price_min) / inject_Z (num_price_levels self))
         (VolumeProfileData.price_levels p) [] ticks = Some d
    /\ py_max_by snd d = Some top
    /\ _calculate_value_area self d (fst top) (py_sum (PyDict.values d))
       = Some (vah, val, vav)
    /\ VolumeProfileData.poc p = fst top
    /\ VolumeProfileData.vah p = vah
    /\ VolumeProfileData.val p = val
    /\ VolumeProfileData.total_volume p = py_sum (PyDict.values d)
    /\ VolumeProfileData.value_area_volume p = vav
    /\ VolumeProfileData.profile_low p = price_min
    /\ VolumeProfileData.profile_high p = price_max
    /\ VolumeProfileData.price_levels p
       = map (fun i => price_min + inject_Z (Z.of_nat i)
                       * ((price_max - price_min) / inject_Z (num_price_levels self)))
             (seq 0 (Z.to_nat (num_price_levels self + 1))).
Proof.
  unfold build_profile.
  destruct (sget (tick_data self) symbol) as [[|t0 raw]|]; try discriminate.
  set (ticks := window_ticks (t0 :: raw) start_time end_time).
  destruct (List.length ticks <? 10)%nat eqn:L; [discriminate|].
  apply Nat.ltb_ge in L.
  destruct (py_min (map LiveQuote.ltp ticks)) as [price_min|] eqn:Pmin; [|discriminate].
  destruct (py_max (map LiveQuote.ltp ticks)) as [price_max|] eqn:Pmax; [|discriminate].
  destruct (Qeq_bool (price_max - price_min) 0) eqn:R; [discriminate|].
  destruct (num_price_levels self =? 0)%Z; [discriminate|].
  destruct (bucket_volumes _ _ _ _ _ _) as [d|] eqn:B; [|discriminate].
  destruct (py_max_by snd d) as [top|] eqn:T; [|discriminate].
  destruct (_calculate_value_area _ _ _ _) as [[[vah val] vav]|] eqn:V; [|discriminate].
  destruct (hd_error ticks); [|discriminate].
  destruct (list_getitem ticks (-1)); [|discriminate].
  intros [= <-]. simpl.
  exists ticks, price_min, price_max, top, vah, val, vav.
  repeat split; auto.
Qed.

Lemma calculate_volume_profile_built (self self' : VolumeProfileCalculator.t)
    (symbol : string) (start_time end_time : option Z) (now : Z)
    (p : VolumeProfileData.t) :
  calculate_volume_profile self symbol start_time end_time now = (self', Some p) ->
  build_profile self symbol start_time end_time now = Some p.
Proof.
  unfold calculate_volume_profile.
  destruct (build_profile _ _ _ _ _); [|discriminate].
  intros [= _ <-]. reflexivity.
Qed.

(** The buckets of a built profile: distinct prices, and the POC entry is
    the first entry with the largest volume. *)
Lemma built_profile_buckets (self : VolumeProfileCalculator.t) (symbol : string)
    (start_time end_time : option Z) (now : Z) (p : VolumeProfileData.t) :
  build_profile self symbol start_time end_time now = Some p ->
  let d := VolumeProfileData.volume_by_price p in
  distinct_keys d = true
  /\ first_max snd d (VolumeProfileData.poc p, volume_at d (VolumeProfileData.poc p))
  /\ exists vah val vav,
       _calculate_value_area self d (VolumeProfileData.poc p)
         (VolumeProfileData.total_volume p) = Some (vah, val, vav)
       /\ VolumeProfileData.vah p = vah
       /\ VolumeProfileData.val p = val
       /\ VolumeProfileData.value_area_volume p = vav.
Proof.
  intro H.
  destruct (build_profile_steps _ _ _ _ _ _ H)
    as (ticks & pmin & pmax & top & vah & val & vav & _ & _ & _ & _ & _
        & B & T & V & Ep & Eh & El & Et & Ev & _).
  simpl in *.
  destruct (bucket_volumes_invariants _ _ _ _ _ _ _ B) as (D & _ & _).
  specialize (D eq_refl).
  pose proof (py_max_by_first_max snd _ _ T) as F.
  pose proof (first_max_in _ _ _ F) as I.
  destruct top as [k v]. simpl in *.
  rewrite Ep, (volume_at_entry _ k v D I).
  repeat split; auto.
  exists vah, val, vav. rewrite Et. auto.
Qed.







(** C4.  Every built profile has [val <= poc <= vah], and its bucket
    volumes add up to its [total_volume]. *)
Theorem built_profile_invariants :
  forall (self self' : VolumeProfileCalculator.t) (symbol : string)
         (start_time end_time : option Z) (now : Z) (p : VolumeProfileData.t),
    calculate_volume_profile self symbol start_time end_time now = (self', Some p) ->
    (VolumeProfileData.val p <= VolumeProfileData.poc p
     /\ VolumeProfileData.poc p <= VolumeProfileData.vah p)
    /\ py_sum (PyDict.values (VolumeProfileData.volume_by_price p))
       = VolumeProfileData.total_volume p.
Proof.
  intros self self' symbol st et now p H.
  apply calculate_volume_profile_built in H.
  destruct (build_profile_steps _ _ _ _ _ _ H)
    as (ticks & pmin & pmax & top & vah & val & vav & _ & _ & _ & _ & _
        & _ & _ & _ & _ & _ & _ & Et & _ & _).
  split; [|symmetry; exact Et].
  destruct (built_profile_buckets _ _ _ _ _ _ H) as (D & F & vah' & val' & vav' & V & Eh & El & _).
  pose proof (mem_entry _ _ _ (first_max_in _ _ _ F)) as M.
  destruct (calculate_value_area_spec self _ _ (VolumeProfileData.total_volume p) D M)
    as (i & u & l & vav0 & vah0 & val0 & _ & _ & _ & _ & Hc & _ & B & _).
  rewrite V in Hc. injection Hc as -> -> ->.
  rewrite Eh, El. exact B.
Qed.

Lemma built_profile_invariants_witness :
  exists p,
    snd (calculate_volume_profile tie_calculator "RELIANCE" None None 0) = Some p
    /\ (VolumeProfileData.val p <= VolumeProfileData.poc p
        /\ VolumeProfileData.poc p <= VolumeProfileData.vah p)
    /\ py_sum (PyDict.values (VolumeProfileData.volume_by_price p))
       = VolumeProfileData.total_volume p.
Proof.
  eexists. split; [vm_compute; reflexivity|].
  eapply (built_profile_invariants tie_calculator _ "RELIANCE" None None 0).
  vm_compute. reflexivity.
Defined.

(** ** Failure and success of profile construction *)








Section Bucketing.
Variables (self : VolumeProfileCalculator.t) (price_min price_max : Q).
Hypothesis levels_positive : (0 < num_price_levels self)%Z.
Hypothesis range_positive : price_min < price_max.

Let bucket_size := (price_max - price_min) / inject_Z (num_price_levels self).
Let price_levels :=
  map (fun i => price_min + inject_Z (Z.of_nat i) * bucket_size)
      (seq 0 (Z.to_nat (num_price_levels self + 1))).




End Bucketing.

Section Construction.
Variables (self : VolumeProfileCalculator.t) (symbol : string)
          (start_time end_time : option Z) (now : Z).

Let raw := match sget (tick_data self) symbol with Some l => l | None => [] end.
Let ticks := window_ticks raw start_time end_time.




End Construction.



(** ** The value area of a built profile *)



(** * Further properties of the code *)

(** ** The buckets of a profile and the ticks they count *)

Lemma set_values_sum (d : volume_dict) (k : Q) (w : Z) :
  py_sum (PyDict.values (PyDict.set Qeq_bool d k w))
  = (py_sum (PyDict.values d) - volume_at d k + w)%Z.
Proof.
  unfold volume_at, PyDict.values.
  induction d as [|[k0 v0] r IH]; cbn [PyDict.set PyDict.get map snd].
  - rewrite py_sum_cons. lia.
  - destruct (Qeq_bool k0 k); cbn [map snd]; rewrite !py_sum_cons; [lia|].
    rewrite IH. lia.
Qed.

Lemma add_volume_sum (d : volume_dict) (k : Q) (v : Z) :
  py_sum (PyDict.values (add_volume d k v)) = (py_sum (PyDict.values d) + v)%Z.
Proof. unfold add_volume. rewrite set_values_sum. lia. Qed.

Lemma bucket_volumes_sum (self : VolumeProfileCalculator.t)
    (price_min bucket_size : Q) (price_levels : list Q) (ticks : list LiveQuote.t) :
  forall d d',
    bucket_volumes self price_min bucket_size price_levels d ticks = Some d' ->
    py_sum (PyDict.values d')
    = (py_sum (PyDict.values d) + py_sum (map LiveQuote.volume ticks))%Z.
Proof.
  induction ticks as [|tick rest IH]; intros d d'; cbn [bucket_volumes map].
  - intros [= <-]. change (py_sum []) with 0%Z. lia.
  - unfold add_tick_to_bucket.
    destruct (list_getitem price_levels _) as [bucket_price|]; [|discriminate].
    intro H. rewrite (IH _ _ H), add_volume_sum, py_sum_cons. lia.
Qed.





Section Grid.
Variables (price_min price_max : Q) (N : Z).
Hypothesis levels_positive : (0 < N)%Z.
Hypothesis range_positive : price_min < price_max.

Let bucket_size := (price_max - price_min) / inject_Z N.
Let price_levels :=
  map (fun i => price_min + inject_Z (Z.of_nat i) * bucket_size)
      (seq 0 (Z.to_nat (N + 1))).





End Grid.

(** The remaining fields of a built profile. *)
Lemma build_profile_fields (self : VolumeProfileCalculator.t) (symbol : string)
    (start_time end_time : option Z) (now : Z) (p : VolumeProfileData.t) :
  build_profile self symbol start_time end_time now = Some p ->
  let d := VolumeProfileData.volume_by_price p in
  let ticks := counted_ticks self symbol start_time end_time in
  VolumeProfileData.symbol p = symbol
  /\ VolumeProfileData.hvn_levels p
     = py_sorted (map fst (filter (fun kv => Qle_bool (1.5 * average_volume p)
                                                      (inject_Z (snd kv))) d))
  /\ VolumeProfileData.lvn_levels p
     = py_sorted (map fst (filter (fun kv => Qle_bool (inject_Z (snd kv))
                                                      (0.5 * average_volume p)) d))
  /\ VolumeProfileData.poc_strength p
     = (if Qlt_bool 0 (average_volume p)
        then inject_Z (volume_at d (VolumeProfileData.poc p)) / average_volume p
        else 0)
  /\ VolumeProfileData.profile_width p
     = VolumeProfileData.vah p - VolumeProfileData.val p
  /\ VolumeProfileData.profile_width_pct p
     = (if Qlt_bool 0 (VolumeProfileData.poc p)
        then VolumeProfileData.profile_width p / VolumeProfileData.poc p * 100
        else 0)
  /\ VolumeProfileData.calculation_time p = now
  /\ (exists first, hd_error ticks = Some first
                    /\ VolumeProfileData.data_start_time p = LiveQuote.timestamp first)
  /\ (exists final, list_getitem ticks (-1) = Some final
                    /\ VolumeProfileData.data_end_time p = LiveQuote.timestamp final)
  /\ VolumeProfileData.num_ticks p = Z.of_nat (List.length ticks).
Proof.
  unfold build_profile, counted_ticks, average_volume.
  destruct (sget (tick_data self) symbol) as [[|t0 raw]|]; try discriminate.
  set (ticks := window_ticks (t0 :: raw) start_time end_time).
  destruct (List.length ticks <? 10)%nat; [discriminate|].
  destruct (py_min (map LiveQuote.ltp ticks)) as [price_min|]; [|discriminate].
  destruct (py_max (map LiveQuote.ltp ticks)) as [price_max|]; [|discriminate].
  destruct (Qeq_bool (price_max - price_min) 0); [discriminate|].
  destruct (num_price_levels self =? 0)%Z; [discriminate|].
  destruct (bucket_volumes _ _ _ _ _ _) as [d|]; [|discriminate].
  destruct (py_max_by snd d) as [top|]; [|discriminate].
  destruct (_calculate_value_area _ _ _ _) as [[[vah val] vav]|]; [|discriminate].
  destruct (hd_error ticks) as [first|]; [|discriminate].
  destruct (list_getitem ticks (-1)) as [final|]; [|discriminate].
  intros [= <-]. cbn.
  repeat split; try reflexivity; eexists; split; reflexivity.
Qed.

(** X5.  The total volume of a built profile is the sum of the volumes of
    the ticks of the window, which is also the sum of its bucket volumes;
    [num_ticks] is the number of those ticks. *)
Theorem built_profile_conserves_volume :
  forall (self self' : VolumeProfileCalculator.t) (symbol : string)
         (start_time end_time : option Z) (now : Z) (p : VolumeProfileData.t),
    calculate_volume_profile self symbol start_time end_time now = (self', Some p) ->
    let ticks := counted_ticks self symbol start_time end_time in
    VolumeProfileData.total_volume p = py_sum (map LiveQuote.volume ticks)
    /\ py_sum (PyDict.values (VolumeProfileData.volume_by_price p))
       = VolumeProfileData.total_volume p
    /\ VolumeProfileData.num_ticks p = Z.of_nat (List.length ticks).
Proof.
  intros self self' symbol st et now p H ticks.
  apply calculate_volume_profile_built in H.
  destruct (build_profile_steps _ _ _ _ _ _ H)
    as (ticks' & pmin & pmax & top & vah & val & vav & Tk & _ & _ & _ & _
        & B & _ & _ & _ & _ & _ & Et & _).
  destruct (build_profile_fields _ _ _ _ _ _ H) as (_ & _ & _ & _ & _ & _ & _ & _ & _ & En).
  apply bucket_volumes_sum in B. change (py_sum (PyDict.values [])) with 0%Z in B.
  subst ticks'. fold (counted_ticks self symbol st et) in B. fold ticks in B.
  repeat split.
  - rewrite Et, B. lia.
  - symmetry. exact Et.
  - exact En.
Qed.

Lemma built_profile_conserves_volume_witness :
  exists p,
    snd (calculate_volume_profile tie_calculator "RELIANCE" None None 0) = Some p
    /\ VolumeProfileData.total_volume p = 1100%Z
    /\ (VolumeProfileData.total_volume p
        = py_sum (map LiveQuote.volume (counted_ticks tie_calculator "RELIANCE" None None))
        /\ py_sum (PyDict.values (VolumeProfileData.volume_by_price p))
           = VolumeProfileData.total_volume p
        /\ VolumeProfileData.num_ticks p
           = Z.of_nat (List.length (counted_ticks tie_calculator "RELIANCE" None None))).
Proof.
  eexists. split; [vm_compute; reflexivity|]. split; [reflexivity|].
  eapply (built_profile_conserves_volume tie_calculator _ "RELIANCE" None None 0).
  vm_compute. reflexivity.
Defined.

Lemma list_getitem_in {A : Type} (l : list A) (i : Z) (x : A) :
  list_getitem l i = Some x -> In x l.
Proof.
  unfold list_getitem.
  destruct (i <? 0)%Z; [destruct (_ <? 0)%Z; [discriminate|]|]; apply nth_error_In.
Qed.











(** ** Volume nodes and POC strength *)

Lemma distinct_keys_same_volume (d : volume_dict) (k k' : Q) (v v' : Z) :
  distinct_keys d = true -> In (k, v) d -> In (k', v') d -> k == k' -> v = v'.
Proof.
  intros D I I' E.
  rewrite <- (volume_at_entry d k v D I), <- (volume_at_entry d k' v' D I').
  apply volume_at_compat, E.
Qed.


Lemma built_profile_average (self : VolumeProfileCalculator.t) (symbol : string)
    (start_time end_time : option Z) (now : Z) (p : VolumeProfileData.t) :
  build_profile self symbol start_time end_time now = Some p ->
  (0 < Z.of_nat (List.length (VolumeProfileData.volume_by_price p)))%Z
  /\ ((0 < VolumeProfileData.total_volume p)%Z -> 0 < average_volume p)
  /\ ((VolumeProfileData.total_volume p <= 0)%Z -> average_volume p <= 0).
Proof.
  intro H.
  destruct (build_profile_steps _ _ _ _ _ _ H)
    as (ticks & pmin & pmax & top & vah & val & vav & _ & L & _ & _ & _
        & B & _).
  destruct (bucket_volumes_invariants _ _ _ _ _ _ _ B) as (_ & Ne & _).
  assert (Nd : VolumeProfileData.volume_by_price p <> []).
  { apply Ne. right. destruct ticks; [simpl in L; lia | discriminate]. }
  assert (Ln : (0 < Z.of_nat (List.length (VolumeProfileData.volume_by_price p)))%Z).
  { destruct (VolumeProfileData.volume_by_price p); [contradiction | simpl; lia]. }
  assert (Qn : 0 < inject_Z (Z.of_nat (List.length (VolumeProfileData.volume_by_price p))))
    by (change 0 with (inject_Z 0); rewrite <- Zlt_Qlt; exact Ln).
  split; [exact Ln|]. unfold average_volume. split; intro T.
  - apply Qlt_shift_div_l; [exact Qn|]. rewrite Qmult_0_l.
    change 0 with (inject_Z 0). rewrite <- Zlt_Qlt. exact T.
  - apply Qle_shift_div_r; [exact Qn|]. rewrite Qmult_0_l.
    change 0 with (inject_Z 0). rewrite <- Zle_Qle. exact T.
Qed.



Lemma sum_le_length_max (d : volume_dict) (m : Z) :
  Forall (fun kv => (snd kv <= m)%Z) d ->
  (py_sum (PyDict.values d) <= Z.of_nat (List.length d) * m)%Z.
Proof.
  induction 1 as [|kv r Hkv _ IH].
  - change (py_sum (PyDict.values [])) with 0%Z. simpl. lia.
  - unfold PyDict.values in *. cbn [map List.length]. rewrite py_sum_cons. lia.
Qed.

Lemma first_max_bounds {A : Type} (key : A -> Z) (xs : list A) (m : A) :
  first_max key xs m -> Forall (fun a => (key a <= key m)%Z) xs.
Proof.
  intros (before & after & -> & Hb & Ha).
  apply Forall_app. split.
  - eapply Forall_impl; [|exact Hb]. intros a L. cbv beta in L. lia.
  - constructor; [lia | exact Ha].
Qed.

(** X9.  The POC of a built profile holds the largest bucket volume, and
    the POC strength (POC volume over average bucket volume) is at least 1
    when the total volume is positive, and 0 when it is not. *)
Theorem poc_strength_at_least_one :
  forall (self self' : VolumeProfileCalculator.t) (symbol : string)
         (start_time end_time : option Z) (now : Z) (p : VolumeProfileData.t),
    calculate_volume_profile self symbol start_time end_time now = (self', Some p) ->
    let d := VolumeProfileData.volume_by_price p in
    (forall k, In k (PyDict.keys d) ->
       (volume_at d k <= volume_at d (VolumeProfileData.poc p))%Z)
    /\ ((0 < VolumeProfileData.total_volume p)%Z -> 1 <= VolumeProfileData.poc_strength p)
    /\ ((VolumeProfileData.total_volume p <= 0)%Z -> VolumeProfileData.poc_strength p = 0).
Proof.
  intros self self' symbol st et now p H d.
  apply calculate_volume_profile_built in H.
  destruct (build_profile_fields _ _ _ _ _ _ H) as (_ & _ & _ & Es & _).
  destruct (built_profile_buckets _ _ _ _ _ _ H) as (D & F & _).
  destruct (built_profile_average _ _ _ _ _ _ H) as (Ln & Pos & Neg).
  destruct (build_profile_steps _ _ _ _ _ _ H)
    as (_ & _ & _ & _ & _ & _ & _ & _ & _ & _ & _ & _ & _ & _ & _ & _ & _ & _ & Et & _).
  fold d in Es, D, F, Ln, Et.
  pose proof (first_max_bounds _ _ _ F) as Bd. cbn [snd] in Bd.
  set (pv := volume_at d (VolumeProfileData.poc p)) in *.
  split; [|split].
  - intros k I. apply in_map_iff in I. destruct I as ([k' v] & <- & I). cbn [fst].
    rewrite (volume_at_entry d k' v D I).
    rewrite Forall_forall in Bd. exact (Bd _ I).
  - intro T. rewrite Es. specialize (Pos T).
    replace (Qlt_bool 0 (average_volume p)) with true
      by (symmetry; apply Qlt_bool_iff, Pos).
    apply Qle_shift_div_l; [exact Pos|]. rewrite Qmult_1_l.
    unfold average_volume. apply Qle_shift_div_r.
    + change 0 with (inject_Z 0). rewrite <- Zlt_Qlt. exact Ln.
    + rewrite <- inject_Z_mult, <- Zle_Qle.
      pose proof (sum_le_length_max d pv Bd) as S. rewrite <- Et in S.
      unfold pv, d in *. lia.
  - intro T. rewrite Es. specialize (Neg T).
    replace (Qlt_bool 0 (average_volume p)) with false
      by (symmetry; apply Qlt_bool_false_iff, Neg).
    reflexivity.
Qed.

Lemma poc_strength_at_least_one_witness :
  exists self' p,
    calculate_volume_profile scenario_nodes_calculator "RELIANCE" None None 0
    = (self', Some p)
    /\ VolumeProfileData.total_volume p = 1200%Z
    /\ 1 <= VolumeProfileData.poc_strength p.
Proof.
  assert (H : exists self' p,
            calculate_volume_profile scenario_nodes_calculator "RELIANCE" None None 0
            = (self', Some p))
    by (eexists; eexists; vm_compute; reflexivity).
  destruct H as (self' & p & H). exists self', p. split; [exact H|].
  assert (T : VolumeProfileData.total_volume p = 1200%Z)
    by (revert H; vm_compute; intros [= _ <-]; vm_compute; reflexivity).
  split; [exact T|].
  apply (proj1 (proj2 (poc_strength_at_least_one _ _ _ _ _ _ _ H))).
  rewrite T. reflexivity.
Defined.

(** ** The time window, the cache and the tick store *)

Lemma in_window_bounds (start_time end_time : option Z) (tick : LiveQuote.t) :
  in_window start_time end_time tick = true <->
  (forall s, start_time = Some s -> (s <= LiveQuote.timestamp tick)%Z)
  /\ (forall e, end_time = Some e -> (LiveQuote.timestamp tick <= e)%Z).
Proof.
  unfold in_window. rewrite andb_true_iff, !negb_true_iff.
  destruct start_time as [s|], end_time as [e|]; rewrite ?Z.ltb_ge; split.
  all: try (intros [A B]; split; intros x [= <-]; assumption).
  all: try (intros [A B]; split; auto; fail).
  all: try (intros [A B]; split; [try reflexivity; apply A; reflexivity
                                 | try reflexivity; apply B; reflexivity]).
  all: try (intros [A B]; split; [intros x E | intros x E]; try discriminate;
            injection E as <-; assumption).
Qed.

Lemma window_ticks_filter (ticks : list LiveQuote.t) (start_time end_time : option Z) :
  window_ticks ticks start_time end_time = filter (in_window start_time end_time) ticks.
Proof.
  destruct start_time, end_time; try reflexivity.
  unfold window_ticks, in_window. cbn [negb andb].
  induction ticks as [|t r IH]; [reflexivity|]. cbn [filter]. f_equal. exact IH.
Qed.

Lemma hd_error_in {A : Type} (l : list A) (x : A) : hd_error l = Some x -> In x l.
Proof. destruct l; [discriminate|]. intros [= <-]. left. reflexivity. Qed.

(** X10.  The window of [calculate_volume_profile] is closed at both
    ends: a tick is counted exactly when its timestamp is neither before
    [start_time] nor after [end_time] (a bound that is not given does not
    restrict).  A built profile counts at least 10 ticks, and its data
    start and end times, the timestamps of the first and the last counted
    tick in arrival order, lie inside the window. *)
Theorem profile_window_is_closed :
  forall (self self' : VolumeProfileCalculator.t) (symbol : string)
         (start_time end_time : option Z) (now : Z) (p : VolumeProfileData.t),
    calculate_volume_profile self symbol start_time end_time now = (self', Some p) ->
    let raw := match sget (tick_data self) symbol with Some l => l | None => [] end in
    (forall tick, In tick (counted_ticks self symbol start_time end_time) <->
       In tick raw
       /\ (forall s, start_time = Some s -> (s <= LiveQuote.timestamp tick)%Z)
       /\ (forall e, end_time = Some e -> (LiveQuote.timestamp tick <= e)%Z))
    /\ (10 <= VolumeProfileData.num_ticks p)%Z
    /\ VolumeProfileData.calculation_time p = now
    /\ (forall s, start_time = Some s ->
          (s <= VolumeProfileData.data_start_time p)%Z
          /\ (s <= VolumeProfileData.data_end_time p)%Z)
    /\ (forall e, end_time = Some e ->
          (VolumeProfileData.data_start_time p <= e)%Z
          /\ (VolumeProfileData.data_end_time p <= e)%Z).
Proof.
  intros self self' symbol st et now p H raw.
  apply calculate_volume_profile_built in H.
  destruct (build_profile_fields _ _ _ _ _ _ H)
    as (_ & _ & _ & _ & _ & _ & Ec & (first & Hf & Ef) & (final & Hl & El) & En).
  destruct (build_profile_steps _ _ _ _ _ _ H)
    as (ticks & _ & _ & _ & _ & _ & _ & Tk & L & _).
  fold (counted_ticks self symbol st et) in Tk. subst ticks.
  assert (W : forall tick, In tick (counted_ticks self symbol st et) <->
                In tick raw
                /\ (forall s, st = Some s -> (s <= LiveQuote.timestamp tick)%Z)
                /\ (forall e, et = Some e -> (LiveQuote.timestamp tick <= e)%Z)).
  { intro tick. unfold counted_ticks. fold raw.
    rewrite window_ticks_filter, filter_In, in_window_bounds. reflexivity. }
  apply hd_error_in in Hf. apply list_getitem_in in Hl.
  apply W in Hf, Hl. destruct Hf as (_ & F1 & F2), Hl as (_ & L1 & L2).
  split; [exact W|]. split; [rewrite En; lia|]. split; [exact Ec|].
  rewrite Ef, El. split; intros x E; split; auto.
Qed.

Lemma profile_window_is_closed_witness :
  exists self' p,
    calculate_volume_profile tie_calculator "RELIANCE" (Some 1%Z) (Some 10%Z) 0
    = (self', Some p)
    /\ (10 <= VolumeProfileData.num_ticks p)%Z
    /\ (1 <= VolumeProfileData.data_start_time p)%Z
    /\ (VolumeProfileData.data_end_time p <= 10)%Z.
Proof.
  assert (H : exists self' p,
            calculate_volume_profile tie_calculator "RELIANCE" (Some 1%Z) (Some 10%Z) 0
            = (self', Some p))
    by (eexists; eexists; vm_compute; reflexivity).
  destruct H as (self' & p & H). exists self', p. split; [exact H|].
  destruct (profile_window_is_closed _ _ _ _ _ _ _ H) as (_ & N & _ & S & E).
  split; [exact N|]. split.
  - exact (proj1 (S 1%Z eq_refl)).
  - exact (proj2 (E 10%Z eq_refl)).
Defined.

Lemma sset_idempotent {V : Type} (d : str_dict V) (k : string) (v : V) :
  sset (sset d k v) k v = sset d k v.
Proof.
  unfold sset.
  induction d as [|[k0 v0] r IH]; cbn [PyDict.set].
  - rewrite String.eqb_refl. reflexivity.
  - destruct (String.eqb k0 k) eqn:E; cbn [PyDict.set]; rewrite E; [reflexivity|].
    f_equal. exact IH.
Qed.

Lemma bucket_volumes_same_levels (self self' : VolumeProfileCalculator.t)
    (price_min bucket_size : Q) (price_levels : list Q) (ticks : list LiveQuote.t) :
  num_price_levels self = num_price_levels self' ->
  forall d,
    bucket_volumes self price_min bucket_size price_levels d ticks
    = bucket_volumes self' price_min bucket_size price_levels d ticks.
Proof.
  intro E. induction ticks as [|tick rest IH]; intro d; cbn [bucket_volumes]; [reflexivity|].
  unfold add_tick_to_bucket. rewrite E.
  destruct (list_getitem price_levels _); [apply IH | reflexivity].
Qed.

(** The profile computation reads the tick store and the two parameters
    of the calculator, never the cache. *)
Lemma build_profile_ignores_cache (self : VolumeProfileCalculator.t)
    (cache : str_dict VolumeProfileData.t) (symbol : string)
    (start_time end_time : option Z) (now : Z) :
  build_profile
    (VolumeProfileCalculator.mk (num_price_levels self) (value_area_pct self)
       (tick_data self) cache) symbol start_time end_time now
  = build_profile self symbol start_time end_time now.
Proof.
  destruct self as [N pct store cache0].
  cbn [num_price_levels value_area_pct tick_data]. unfold build_profile.
  cbn [num_price_levels value_area_pct tick_data].
  destruct (sget store symbol) as [[|t0 raw]|]; try reflexivity.
  destruct (List.length _ <? 10)%nat; [reflexivity|].
  destruct (py_min _) as [price_min|]; [|reflexivity].
  destruct (py_max _) as [price_max|]; [|reflexivity].
  destruct (Qeq_bool _ 0); [reflexivity|].
  destruct (N =? 0)%Z; [reflexivity|].
  rewrite (bucket_volumes_same_levels
             (VolumeProfileCalculator.mk N pct store cache)
             (VolumeProfileCalculator.mk N pct store cache0)) by reflexivity.
  reflexivity.
Qed.

(** X11.  [calculate_volume_profile] never changes the tick store or the
    parameters of the calculator, and never the cached profile of another
    symbol.  A call that gives no profile leaves the calculator, with the
    profile cached before, as it was; a call that gives one caches it for
    the symbol; and repeating the call on the resulting calculator gives
    the same result again. *)
Theorem calculate_volume_profile_frame :
  forall (self : VolumeProfileCalculator.t) (symbol : string)
         (start_time end_time : option Z) (now : Z),
    let r := calculate_volume_profile self symbol start_time end_time now in
    tick_data (fst r) = tick_data self
    /\ num_price_levels (fst r) = num_price_levels self
    /\ value_area_pct (fst r) = value_area_pct self
    /\ (forall other, other <> symbol ->
          get_cached_profile (fst r) other = get_cached_profile self other)
    /\ (snd r = None -> fst r = self)
    /\ (forall p, snd r = Some p ->
          get_cached_profile (fst r) symbol = Some p
          /\ VolumeProfileData.symbol p = symbol)
    /\ calculate_volume_profile (fst r) symbol start_time end_time now = r.
Proof.
  intros self symbol st et now r. unfold r, calculate_volume_profile.
  destruct (build_profile self symbol st et now) as [p|] eqn:B; cbn [fst snd].
  - repeat split; try reflexivity.
    + intros other Ne. unfold get_cached_profile. cbn. apply sget_sset_other. auto.
    + discriminate.
    + injection H as <-. unfold get_cached_profile. cbn. apply sget_sset_same.
    + injection H as <-.
      exact (proj1 (build_profile_fields _ _ _ _ _ _ B)).
    + cbn [num_price_levels value_area_pct tick_data calculated_profiles].
      rewrite build_profile_ignores_cache, B, sset_idempotent. reflexivity.
  - repeat split; try reflexivity; try discriminate. rewrite B. reflexivity.
Qed.

Lemma ticks_of_add_tick_data (self : VolumeProfileCalculator.t)
    (symbol other : string) (quote : LiveQuote.t) :
  ticks_of (add_tick_data self symbol quote) other
  = if String.eqb symbol other then ticks_of self other ++ [quote]
    else ticks_of self other.
Proof.
  unfold ticks_of, add_tick_data. cbn [tick_data].
  destruct (String.eqb symbol other) eqn:E.
  - apply String.eqb_eq in E. subst other. rewrite sget_sset_same. reflexivity.
  - apply String.eqb_neq in E. rewrite sget_sset_other by exact E. reflexivity.
Qed.

Lemma store_ticks_spec (quotes : list (string * LiveQuote.t)) :
  forall (self : VolumeProfileCalculator.t) (symbol : string),
    ticks_of (store_ticks self quotes) symbol
    = ticks_of self symbol
      ++ map snd (filter (fun sq => String.eqb (fst sq) symbol) quotes)
    /\ calculated_profiles (store_ticks self quotes) = calculated_profiles self
    /\ num_price_levels (store_ticks self quotes) = num_price_levels self
    /\ value_area_pct (store_ticks self quotes) = value_area_pct self.
Proof.
  unfold store_ticks.
  induction quotes as [|[s q] rest IH]; intros self symbol; cbn [fold_left filter map fst snd].
  - rewrite app_nil_r. auto.
  - destruct (IH (add_tick_data self s q) symbol) as (E1 & E2 & E3 & E4).
    rewrite E1, E2, E3, E4, ticks_of_add_tick_data.
    destruct (String.eqb s symbol); cbn [map snd]; rewrite <- ?app_assoc; auto.
Qed.

(** X12.  Ticks stored one by one are kept per symbol in arrival order:
    after a stream of quotes, the ticks of a symbol are those it had
    followed by the quotes of the stream for that symbol, in order; on a
    new calculator they are exactly those quotes, and nothing is cached.
    Storing never touches the cache or the parameters. *)
Theorem add_tick_data_keeps_arrival_order :
  forall (quotes : list (string * LiveQuote.t)) (self : VolumeProfileCalculator.t)
         (symbol : string),
    ticks_of (store_ticks self quotes) symbol
    = ticks_of self symbol
      ++ map snd (filter (fun sq => String.eqb (fst sq) symbol) quotes)
    /\ calculated_profiles (store_ticks self quotes) = calculated_profiles self
    /\ num_price_levels (store_ticks self quotes) = num_price_levels self
    /\ value_area_pct (store_ticks self quotes) = value_area_pct self
    /\ (forall levels pct,
          ticks_of (store_ticks (VolumeProfileCalculator_init levels pct) quotes) symbol
          = map snd (filter (fun sq => String.eqb (fst sq) symbol) quotes)
          /\ get_cached_profile
               (store_ticks (VolumeProfileCalculator_init levels pct) quotes) symbol
             = None).
Proof.
  intros quotes self symbol.
  destruct (store_ticks_spec quotes self symbol) as (E1 & E2 & E3 & E4).
  repeat split; try assumption.
  - destruct (store_ticks_spec quotes (VolumeProfileCalculator_init levels pct) symbol)
      as (F1 & _).
    exact F1.
  - destruct (store_ticks_spec quotes (VolumeProfileCalculator_init levels pct) symbol)
      as (_ & F2 & _).
    unfold get_cached_profile. rewrite F2. reflexivity.
Qed.

(** X13.  [clear_tick_data] empties the ticks of the symbol and of no
    other, and leaves the cache alone: the profile cached for the symbol
    stays available, while every calculation for it, whatever the window,
    gives no profile and changes nothing until new ticks arrive. *)
Theorem clear_tick_data_keeps_cache :
  forall (self : VolumeProfileCalculator.t) (symbol : string),
    let cleared := clear_tick_data self symbol in
    ticks_of cleared symbol = []
    /\ (forall other, other <> symbol -> ticks_of cleared other = ticks_of self other)
    /\ (forall other, get_cached_profile cleared other = get_cached_profile self other)
    /\ (forall start_time end_time now,
          calculate_volume_profile cleared symbol start_time end_time now
          = (cleared, None))
    /\ clear_tick_data cleared symbol = cleared.
Proof.
  intros self symbol cleared.
  assert (E : ticks_of cleared symbol = []).
  { unfold cleared, clear_tick_data, ticks_of.
    destruct (smem (tick_data self) symbol) eqn:M; cbn [tick_data].
    - rewrite sget_sset_same. reflexivity.
    - rewrite smem_sget in M. destruct (sget (tick_data self) symbol); [discriminate|].
      reflexivity. }
  split; [exact E|]. split; [|split; [|split]].
  - intros other Ne. unfold cleared, clear_tick_data, ticks_of.
    destruct (smem (tick_data self) symbol); [|reflexivity].
    cbn [tick_data]. rewrite sget_sset_other by auto. reflexivity.
  - intro other. unfold cleared, clear_tick_data.
    destruct (smem (tick_data self) symbol); reflexivity.
  - intros st et now. unfold calculate_volume_profile, build_profile.
    unfold ticks_of in E. rewrite E. reflexivity.
  - unfold cleared, clear_tick_data.
    destruct (smem (tick_data self) symbol) eqn:M; cbn [tick_data]; [|rewrite M; reflexivity].
    rewrite smem_sset_same.
    cbn [num_price_levels value_area_pct tick_data calculated_profiles].
    fold (@sset (list LiveQuote.t)). rewrite sset_idempotent. reflexivity.
Qed.

(** ** What the value-area volume counts *)

Lemma volume_three_way (d : volume_dict) (sorted_prices : list Q) (l u : nat) :
  (l <= u)%nat ->
  py_sum (map (volume_at d) sorted_prices)
  = (volume_below d sorted_prices l + volume_between d sorted_prices l u
     + volume_above d sorted_prices u)%Z.
Proof.
  intro L. unfold volume_below, volume_between, volume_above.
  rewrite <- (firstn_skipn l sorted_prices) at 1.
  rewrite <- (firstn_skipn (u - l + 1) (skipn l sorted_prices)) at 1.
  rewrite skipn_skipn. replace (u - l + 1 + l)%nat with (S u) by lia.
  rewrite !map_app, !py_sum_app. lia.
Qed.

Lemma volumes_sum_nonneg (d : volume_dict) (prices : list Q) :
  nonneg_volumes d -> (0 <= py_sum (map (volume_at d) prices))%Z.
Proof.
  intro N. induction prices as [|x r IH].
  - change (py_sum (map (volume_at d) [])) with 0%Z. lia.
  - cbn [map]. rewrite py_sum_cons. pose proof (volume_at_nonneg d x N). lia.
Qed.

Lemma volume_le_sum (d : volume_dict) (prices : list Q) (j : nat) (y : Q) :
  nonneg_volumes d -> nth_error prices j = Some y ->
  (volume_at d y <= py_sum (map (volume_at d) prices))%Z.
Proof.
  intro N. revert j. induction prices as [|x r IH]; intros j H.
  - destruct j; discriminate.
  - cbn [map]. rewrite py_sum_cons. destruct j as [|j]; cbn [nth_error] in H.
    + injection H as ->. pose proof (volumes_sum_nonneg d r N). lia.
    + specialize (IH j H). pose proof (volume_at_nonneg d x N). lia.
Qed.

(** X14.  The value-area volume of a built profile is exactly the volume
    of the buckets from VAL to VAH in price order.  When no tick of the
    window has a negative volume, it is at least the POC volume and at
    most the total volume. *)
Theorem value_area_volume_is_volume_between :
  forall (self self' : VolumeProfileCalculator.t) (symbol : string)
         (start_time end_time : option Z) (now : Z) (p : VolumeProfileData.t),
    calculate_volume_profile self symbol start_time end_time now = (self', Some p) ->
    let d := VolumeProfileData.volume_by_price p in
    let sorted_prices := py_sorted (PyDict.keys d) in
    exists lower upper,
      nth_error sorted_prices lower = Some (VolumeProfileData.val p)
      /\ nth_error sorted_prices upper = Some (VolumeProfileData.vah p)
      /\ (lower <= upper)%nat
      /\ VolumeProfileData.value_area_volume p = volume_between d sorted_prices lower upper
      /\ (Forall (fun t => (0 <= LiveQuote.volume t)%Z)
                 (counted_ticks self symbol start_time end_time) ->
          (volume_at d (VolumeProfileData.poc p) <= VolumeProfileData.value_area_volume p)%Z
          /\ (VolumeProfileData.value_area_volume p <= VolumeProfileData.total_volume p)%Z).
Proof.
  intros self self' symbol st et now p H d sp.
  apply calculate_volume_profile_built in H.
  destruct (build_profile_steps _ _ _ _ _ _ H)
    as (ticks & pmin & pmax & top & vah & val & vav & Tk & _ & _ & _ & _
        & B & T & V & Ep & Eh & El & Et & Ev & _).
  fold (counted_ticks self symbol st et) in Tk. fold d in B, T, V, Et.
  destruct (bucket_volumes_invariants _ _ _ _ _ _ _ B) as (D & _ & Nn).
  specialize (D eq_refl).
  pose proof (mem_entry d (fst top) (snd top)) as M.
  rewrite <- surjective_pairing in M.
  specialize (M (first_max_in _ _ _ (py_max_by_first_max snd _ _ T))).
  destruct (calculate_value_area_spec self d (fst top) (py_sum (PyDict.values d)) D M)
    as (i & u & l & vav' & vah' & val' & Hi & _ & Nu & Nl & V' & (O1 & O2) & _ & Sm & _).
  rewrite V in V'. injection V' as <- <- <-.
  assert (Lu : (l <= u)%nat) by lia.
  pose proof (volume_three_way d (py_sorted (PyDict.keys d)) l u Lu) as W.
  rewrite (sorted_volumes_total d D) in W.
  fold sp in Hi, Nu, Nl, Sm, W.
  exists l, u. rewrite El, Eh, Ev, Ep, Et.
  split; [exact Nl|]. split; [exact Nu|]. split; [exact Lu|].
  split; [lia|].
  intro F. rewrite <- Tk in F.
  assert (N : nonneg_volumes d) by (apply Nn; [constructor | exact F]).
  split.
  - destruct (list_index_some sp (fst top) i Hi) as (y & Hy & Ey).
    rewrite <- (volume_at_compat d y (fst top) Ey).
    replace vav with (volume_between d sp l u) by lia.
    apply (volume_le_sum d _ (i - l) y N).
    rewrite nth_error_firstn, nth_error_skipn.
    replace (i - l <? u - l + 1)%nat with true by (symmetry; apply Nat.ltb_lt; lia).
    replace (l + (i - l))%nat with i by lia. exact Hy.
  - pose proof (volumes_sum_nonneg d (firstn l sp) N) as A.
    pose proof (volumes_sum_nonneg d (skipn (S u) sp) N) as C.
    fold (volume_below d sp l) in A. fold (volume_above d sp u) in C. lia.
Qed.

Lemma value_area_volume_is_volume_between_witness :
  exists self' p,
    calculate_volume_profile scenario_nodes_calculator "RELIANCE" None None 0
    = (self', Some p)
    /\ exists lower upper,
         (lower <= upper)%nat
         /\ VolumeProfileData.value_area_volume p
            = volume_between (VolumeProfileData.volume_by_price p)
                (py_sorted (PyDict.keys (VolumeProfileData.volume_by_price p)))
                lower upper.
Proof.
  assert (H : exists self' p,
            calculate_volume_profile scenario_nodes_calculator "RELIANCE" None None 0
            = (self', Some p))
    by (eexists; eexists; vm_compute; reflexivity).
  destruct H as (self' & p & H). exists self', p. split; [exact H|].
  destruct (value_area_volume_is_volume_between _ _ _ _ _ _ _ H)
    as (lower & upper & _ & _ & L & E & _).
  exists lower, upper. split; [exact L | exact E].
Defined.

(** ** The handler of [_calculate_value_area] *)

Lemma list_index_none (l : list Q) (x : Q) :
  (forall y, In y l -> Qeq_bool y x = false) -> list_index l x = None.
Proof.
  induction l as [|y r IH]; intro H; cbn [list_index]; [reflexivity|].
  rewrite (H y) by (left; reflexivity).
  rewrite IH; [reflexivity|]. intros z I. apply H. right. exact I.
Qed.

Lemma list_getitem_minus_one {A : Type} (l : list A) :
  l <> [] -> list_getitem l (-1) = nth_error l (List.length l - 1).
Proof.
  intro N. unfold list_getitem. change (-1 <? 0)%Z with true. cbv iota.
  destruct l as [|x r]; [contradiction|].
  replace (-1 + Z.of_nat (List.length (x :: r)) <? 0)%Z with false
    by (symmetry; apply Z.ltb_ge; cbn [List.length]; lia).
  f_equal. cbn [List.length]. lia.
Qed.

(** X15.  When the POC passed to [_calculate_value_area] is not a bucket
    price, the lookup of its index fails and the handler answers with the
    whole profile: the highest bucket price as VAH, the lowest as VAL and
    the total volume passed in as value-area volume.  On an empty dict the
    handler itself raises. *)
Theorem value_area_fallback_is_whole_range :
  forall (self : VolumeProfileCalculator.t) (d : volume_dict) (poc : Q) (total : Z),
    PyDict.mem Qeq_bool d poc = false ->
    (d = [] -> _calculate_value_area self d poc total = None)
    /\ (d <> [] ->
        exists hi lo,
          _calculate_value_area self d poc total = Some (hi, lo, total)
          /\ In hi (PyDict.keys d) /\ In lo (PyDict.keys d)
          /\ forall k, In k (PyDict.keys d) -> lo <= k /\ k <= hi).
Proof.
  intros self d poc total M. split.
  - intros ->. reflexivity.
  - intro Nd. unfold _calculate_value_area.
    set (sp := py_sorted (PyDict.keys d)).
    pose proof (py_sorted_permutation (PyDict.keys d)) as P. fold sp in P.
    assert (Li : list_index sp poc = None).
    { apply list_index_none. intros y I.
      apply (Permutation_in _ (Permutation_sym P)) in I.
      unfold PyDict.mem in M.
      destruct (PyDict.get Qeq_bool d poc) eqn:G; [discriminate|].
      exact (proj1 (get_none_keys d poc) G y I). }
    rewrite Li.
    assert (Len : List.length sp = List.length d).
    { rewrite <- (Permutation_length P). unfold PyDict.keys. apply length_map. }
    assert (Ns : sp <> []).
    { intro E. rewrite E in Len. destruct d; [contradiction | discriminate]. }
    rewrite (list_getitem_minus_one sp Ns).
    assert (L0 : (0 < List.length sp)%nat)
      by (destruct sp; [contradiction | simpl; lia]).
    destruct (nth_error_in_range sp (List.length sp - 1)) as [hi Hhi]; [lia|].
    destruct (nth_error_in_range sp 0 L0) as [lo Hlo].
    rewrite Hhi. unfold list_getitem. change (0 <? 0)%Z with false. cbv iota.
    change (Z.to_nat 0) with 0%nat. rewrite Hlo.
    exists hi, lo. split; [reflexivity|].
    split; [exact (Permutation_in _ (Permutation_sym P) (nth_error_In _ _ Hhi))|].
    split; [exact (Permutation_in _ (Permutation_sym P) (nth_error_In _ _ Hlo))|].
    intros k I. apply (Permutation_in _ P) in I.
    destruct (In_nth_error _ _ I) as [n Hn].
    assert (n < List.length sp)%nat by (apply nth_error_Some; congruence).
    pose proof (py_sorted_sorted (PyDict.keys d)) as St. fold sp in St.
    split.
    + apply (sorted_nth_le sp St 0 n lo k); [lia | exact Hlo | exact Hn].
    + apply (sorted_nth_le sp St n (List.length sp - 1) k hi); [lia | exact Hn | exact Hhi].
Qed.

Lemma value_area_fallback_is_whole_range_witness :
  PyDict.mem Qeq_bool scenario_volumes 6 = false
  /\ exists hi lo,
       _calculate_value_area scenario_calculator scenario_volumes 6 1000
       = Some (hi, lo, 1000%Z)
       /\ hi == 5 /\ lo == 1.
Proof.
  split; [reflexivity|].
  destruct (proj2 (value_area_fallback_is_whole_range scenario_calculator scenario_volumes
                     6 1000 eq_refl)) as (hi & lo & E & _).
  - discriminate.
  - exists hi, lo. split; [exact E|].
    revert E. vm_compute. intros [= <- <-]. split; reflexivity.
Defined.

(** ** Session and rolling windows *)




(** ** Nearness to a volume node *)






(** ** Volume at a price *)

Section VolumeAtPrice.
Variables (price tolerance : Q).

Let step (total_volume : Z) (kv : Q * Z) : Z :=
  if Qle_bool (Qabs (fst kv - price)) tolerance
  then (total_volume + snd kv)%Z else total_volume.

Lemma volume_fold_shift (d : volume_dict) :
  forall a, fold_left step d a = (a + fold_left step d 0)%Z.
Proof.
  induction d as [|kv r IH]; intro a; cbn [fold_left]; [lia|].
  rewrite IH, (IH (step 0 kv)). unfold step.
  destruct (Qle_bool _ tolerance); lia.
Qed.

Lemma volume_fold_cons (kv : Q * Z) (d : volume_dict) :
  fold_left step (kv :: d) 0%Z
  = ((if Qle_bool (Qabs (fst kv - price)) tolerance then snd kv else 0)
     + fold_left step d 0)%Z.
Proof.
  cbn [fold_left]. rewrite volume_fold_shift. unfold step.
  destruct (Qle_bool _ tolerance); lia.
Qed.

Lemma volume_fold_bounds (d : volume_dict) :
  nonneg_volumes d ->
  (0 <= fold_left step d 0 <= py_sum (PyDict.values d))%Z.
Proof.
  induction 1 as [|kv r Hkv _ IH].
  - change (py_sum (PyDict.values [])) with 0%Z. simpl. lia.
  - rewrite volume_fold_cons. unfold PyDict.values in *. cbn [map].
    rewrite py_sum_cons. destruct (Qle_bool _ tolerance); lia.
Qed.

Lemma volume_fold_negative (d : volume_dict) :
  tolerance < 0 -> fold_left step d 0%Z = 0%Z.
Proof.
  intro T. induction d as [|kv r IH]; [reflexivity|].
  rewrite volume_fold_cons, IH.
  replace (Qle_bool (Qabs (fst kv - price)) tolerance) with false; [reflexivity|].
  symmetry. apply Qle_bool_false_iff.
  pose proof (Qabs_nonneg (fst kv - price)). lra.
Qed.

End VolumeAtPrice.

Lemma exact_match (k price : Q) :
  Qle_bool (Qabs (k - price)) 0 = Qeq_bool k price.
Proof.
  destruct (Qle_bool (Qabs (k - price)) 0) eqn:A, (Qeq_bool k price) eqn:B;
    try reflexivity; exfalso.
  - apply Qle_bool_iff, Qabs_Qle_condition in A.
    assert (E : k == price) by lra. apply Qeq_bool_iff in E. congruence.
  - apply Qle_bool_false_iff in A. apply Qeq_bool_iff in B.
    assert (E : k - price == 0) by lra. rewrite E in A.
    exact (Qlt_irrefl _ A).
Qed.

Lemma volume_fold_exact (price : Q) (d : volume_dict) :
  distinct_keys d = true ->
  fold_left (fun total_volume kv =>
               if Qle_bool (Qabs (fst kv - price)) 0
               then (total_volume + snd kv)%Z else total_volume) d 0%Z
  = volume_at d price.
Proof.
  induction d as [|[k v] r IH]; intro D; [reflexivity|].
  rewrite volume_fold_cons. cbn [fst snd]. rewrite exact_match.
  cbn [distinct_keys] in D.
  destruct (PyDict.get Qeq_bool r k) eqn:G; [discriminate|].
  unfold volume_at. cbn [PyDict.get].
  destruct (Qeq_bool k price) eqn:E.
  - specialize (IH D). unfold volume_at in IH.
    assert (N : PyDict.get Qeq_bool r price = None).
    { apply get_none_keys. intros k' I.
      rewrite <- (proj1 (get_none_keys r k) G k' I).
      rewrite (Qeq_bool_sym k' price), (Qeq_bool_sym k' k).
      symmetry. apply Qeq_bool_compat_l. exact E. }
    rewrite N in IH. rewrite IH. lia.
  - rewrite (IH D). unfold volume_at. lia.
Qed.

(** X18.  [get_volume_at_price] adds up the buckets whose price is
    within the tolerance of the given price: with a negative tolerance it
    returns 0; with a tolerance of 0 it returns exactly the volume of the
    bucket at that price (0 when there is none); and when no bucket volume
    is negative the result lies between 0 and the sum of all buckets. *)
Theorem get_volume_at_price_bounds :
  forall (p : VolumeProfileData.t) (price tolerance : Q),
    let d := VolumeProfileData.volume_by_price p in
    (tolerance < 0 -> get_volume_at_price p price tolerance = 0%Z)
    /\ (distinct_keys d = true -> get_volume_at_price p price 0 = volume_at d price)
    /\ (nonneg_volumes d ->
        (0 <= get_volume_at_price p price tolerance <= py_sum (PyDict.values d))%Z).
Proof.
  intros p price tolerance d. unfold get_volume_at_price. fold d.
  split; [|split].
  - apply volume_fold_negative.
  - apply volume_fold_exact.
  - apply volume_fold_bounds.
Qed.

(** ** Strategy metrics *)

Lemma fsum_shift (l : list Q) : forall a, fold_left Qplus l a == a + fold_left Qplus l 0.
Proof.
  induction l as [|x r IH]; intro a; cbn [fold_left]; [ring|].
  rewrite IH, (IH (0 + x)). ring.
Qed.

Lemma py_fsum_cons (x : Q) (l : list Q) : py_fsum (x :: l) == x + py_fsum l.
Proof. unfold py_fsum. cbn [fold_left]. rewrite fsum_shift. ring. Qed.








Lemma poc_distances_none (trades : list TradeResult.t) :
  StrategyMetrics.poc_distances trades = None
  <-> exists t, In t trades /\ TradeResult.entry_poc t == 0.
Proof.
  induction trades as [|t r IH]; cbn [StrategyMetrics.poc_distances].
  - split; [discriminate | intros (t & [] & _)].
  - destruct (Qeq_bool (TradeResult.entry_poc t) 0) eqn:E.
    + split; [|reflexivity]. intros _. exists t. split; [left; reflexivity|].
      apply Qeq_bool_iff, E.
    + destruct (StrategyMetrics.poc_distances r) as [ds|].
      * split; [discriminate|]. intros (t' & [<- | I] & Z0).
        -- apply Qeq_bool_iff in Z0. congruence.
        -- assert (N : Some ds = None) by (apply IH; exists t'; auto).
           discriminate N.
      * split; [|reflexivity]. intros _.
        destruct (proj1 IH eq_refl) as (t' & I & Z0). exists t'. split; [right; exact I | exact Z0].
Qed.

Lemma poc_distances_nonneg (trades : list TradeResult.t) (ds : list Q) :
  (forall t, In t trades -> 0 < TradeResult.entry_poc t) ->
  StrategyMetrics.poc_distances trades = Some ds ->
  List.length ds = List.length trades /\ 0 <= py_fsum ds.
Proof.
  revert ds. induction trades as [|t r IH]; intros ds P; cbn [StrategyMetrics.poc_distances].
  - intros [= <-]. split; [reflexivity|]. unfold py_fsum. simpl. lra.
  - destruct (Qeq_bool (TradeResult.entry_poc t) 0); [discriminate|].
    destruct (StrategyMetrics.poc_distances r) as [ds'|]; [|discriminate].
    assert (Pt : 0 < TradeResult.entry_poc t) by (apply P; left; reflexivity).
    assert (X : 0 <= Qabs (TradeResult.entry_price t - TradeResult.entry_poc t)
                     / TradeResult.entry_poc t).
    { apply Qle_shift_div_l; [exact Pt|]. rewrite Qmult_0_l. apply Qabs_nonneg. }
    set (x := Qabs (TradeResult.entry_price t - TradeResult.entry_poc t)
              / TradeResult.entry_poc t) in *.
    clearbody x. intros [= <-].
    destruct (IH ds') as (L & S); [intros t' I; apply P; right; exact I | reflexivity|].
    split; [cbn [List.length]; lia|].
    rewrite py_fsum_cons. lra.
Qed.

(** X20.  [update_metrics] on an empty list changes nothing.  On any
    list it raises (a division by zero in its last loop) exactly when some
    trade has an entry POC of 0, and then the object is left half updated:
    the counts are those of the new list while the average POC distance is
    the old one.  When every entry POC is positive the call returns and the
    average POC distance is not negative. *)
Theorem update_metrics_zero_poc :
  forall (self : StrategyMetrics.t) (trades : list TradeResult.t),
    let r := StrategyMetrics.update_metrics self trades in
    StrategyMetrics.update_metrics self [] = (self, true)
    /\ (snd r = false <-> exists t, In t trades /\ TradeResult.entry_poc t == 0)
    /\ (snd r = false ->
        StrategyMetrics.total_trades (fst r) = Z.of_nat (List.length trades)
        /\ StrategyMetrics.avg_poc_distance (fst r) = StrategyMetrics.avg_poc_distance self)
    /\ ((forall t, In t trades -> 0 < TradeResult.entry_poc t) ->
        snd r = true
        /\ (trades <> [] -> 0 <= StrategyMetrics.avg_poc_distance (fst r))).
Proof.
  intros self trades r. split; [reflexivity|].
  unfold r, StrategyMetrics.update_metrics.
  destruct trades as [|t0 rest].
  { cbn [fst snd]. split; [|split].
    - split; [discriminate | intros (t & [] & _)].
    - discriminate.
    - intros _. split; [reflexivity | intro N; contradiction]. }
  set (trades := t0 :: rest).
  destruct (StrategyMetrics.poc_distances trades) as [ds|] eqn:P; cbn [fst snd].
  - split; [|split].
    + split; [discriminate|]. intro E. apply poc_distances_none in E. congruence.
    + discriminate.
    + intro Pos. split; [reflexivity|]. intros _. cbn.
      destruct (poc_distances_nonneg trades ds Pos P) as (L & S).
      apply Qle_shift_div_l; [|lra].
      change 0 with (inject_Z 0). rewrite <- Zlt_Qlt. rewrite L. unfold trades. simpl. lia.
  - split; [|split].
    + split; [intros _; apply poc_distances_none, P | reflexivity].
    + intros _. split; reflexivity.
    + intro Pos. exfalso. apply poc_distances_none in P.
      destruct P as (t & I & Z0). specialize (Pos t I). lra.
Qed.

(** ** The signal constructor and its factory *)

(** X21.  [create_vp_signal_from_symbol] raises for every input: it calls
    the constructor with keywords that [VolumeProfileSignal] does not
    declare ([poc], [vah], [val], [breakout_type],
    [distance_from_poc_pct]).  The constructor itself, called with the
    declared fields, returns the signal with exactly those fields, and
    sets [risk_reward_ratio] to reward over risk only when the risk amount
    is positive (the attribute stays unset otherwise). *)
Theorem create_vp_signal_from_symbol_raises :
  (forall symbol signal_type vp_data breakout_level breakout_type entry_price
          stop_loss target_price confidence volume_ratio breakout_volume
          distance_from_poc_pct near_hvn near_lvn timestamp vp_calculation_time
          risk_amount reward_amount,
      create_vp_signal_from_symbol symbol signal_type vp_data breakout_level
        breakout_type entry_price stop_loss target_price confidence volume_ratio
        breakout_volume distance_from_poc_pct near_hvn near_lvn timestamp
        vp_calculation_time risk_amount reward_amount = None)
  /\ (forall s : VolumeProfileSignal.t,
        exists s',
          VolumeProfileSignal_new (init_kwargs s) = Some s'
          /\ init_kwargs s' = init_kwargs s
          /\ VolumeProfileSignal.risk_reward_ratio s'
             = (if Qlt_bool 0 (VolumeProfileSignal.risk_amount s)
                then Some (VolumeProfileSignal.reward_amount s
                           / VolumeProfileSignal.risk_amount s)
                else None)).
Proof.
  split.
  - intros. reflexivity.
  - intros [symbol signal_type vp_data breakout_level entry_price stop_loss
            target_price confidence volume_confirmation poc_distance near_hvn
            near_lvn breakout_volume volume_ratio breakout_distance_pct
            risk_amount reward_amount risk_reward_ratio timestamp
            vp_calculation_time].
    eexists. split; [reflexivity|]. split; reflexivity.
Qed.

(** ** Position tracking *)

Lemma track_position_fields (cfg : Config.t) (p : Position.t) (q : Q) :
  let p' := track_position cfg p q in
  Position.signal_type p' = Position.signal_type p
  /\ Position.entry_price p' = Position.entry_price p
  /\ Position.quantity p' = Position.quantity p
  /\ Position.stop_loss p' = Position.stop_loss p
  /\ Position.target_price p' = Position.target_price p
  /\ Position.current_price p' = q
  /\ Position.max_favorable_excursion p'
     = py_max2 (Position.max_favorable_excursion p) (excursion p q)
  /\ Position.max_adverse_excursion p'
     = py_min2 (Position.max_adverse_excursion p) (excursion p q)
  /\ Position.highest_price p'
     = match Position.signal_type p with
       | LONG => py_max2 (Position.highest_price p) q
       | SHORT => Position.highest_price p
       end
  /\ Position.lowest_price p'
     = match Position.signal_type p with
       | LONG => Position.lowest_price p
       | SHORT => if flt (Fin q) (Position.lowest_price p)
                  then Fin q else Position.lowest_price p
       end
  /\ Position.unrealized_pnl p'
     = match Position.signal_type p with
       | LONG => (q - Position.entry_price p) * inject_Z (Position.quantity p)
       | SHORT => (Position.entry_price p - q) * inject_Z (Z.abs (Position.quantity p))
       end.
Proof.
  unfold track_position, excursion, Position.update_price_extremes, _update_trailing_stop.
  destruct (Config.enable_trailing_stops cfg), (Position.signal_type p) eqn:E;
    cbn [Position.signal_type Position.set_unrealized_pnl Position.highest_price
         Position.lowest_price Position.current_stop_loss];
    try match goal with |- context [if flt ?a ?b then Position.set_current_stop_loss _ _ else _] =>
          destruct (flt a b) end;
    cbn; repeat split; reflexivity.
Qed.

Lemma track_ticks_cons (cfg : Config.t) (p : Position.t) (q : Q) (prices : list Q) :
  track_ticks cfg p (q :: prices) = track_ticks cfg (track_position cfg p q) prices.
Proof. reflexivity. Qed.

Lemma lowest_stays_below (q q2 : Q) (l : pyfloat) :
  flt (Fin q) l = false ->
  flt (Fin q) (if flt (Fin q2) l then Fin q2 else l) = false.
Proof.
  intro H. destruct (flt (Fin q2) l) eqn:F; [|exact H].
  destruct l as [x| | |]; cbn [flt] in *; try discriminate.
  apply Qlt_bool_false_iff in H. apply Qlt_bool_iff in F.
  apply Qlt_bool_false_iff. lra.
Qed.

Lemma lowest_bound_kept (cfg : Config.t) (q : Q) (prices : list Q) :
  forall p, flt (Fin q) (Position.lowest_price p) = false ->
            flt (Fin q) (Position.lowest_price (track_ticks cfg p prices)) = false.
Proof.
  induction prices as [|q1 r IH]; intros p B; [exact B|].
  rewrite track_ticks_cons. apply IH.
  destruct (track_position_fields cfg p q1)
    as (_ & _ & _ & _ & _ & _ & _ & _ & _ & Elo & _).
  rewrite Elo. destruct (Position.signal_type p); [exact B|].
  apply lowest_stays_below, B.
Qed.

(** X22.  Tracking a position over any sequence of tick prices never
    changes its side, entry price, quantity, initial stop or target; the
    maximum favourable excursion never decreases and ends at or above the
    gain per share at every price seen, the maximum adverse excursion never
    increases and ends at or below it.  A long position's highest price
    ends at or above every price seen while its lowest price is never
    touched; a short position's lowest price ends at or below every price
    seen while its highest price is never touched.  After the last tick
    the current price is that tick's price and the unrealized P&L is the
    gain per share times the quantity (its absolute value for a short
    position). *)
Theorem tracking_records_extremes :
  forall (cfg : Config.t) (prices : list Q) (p : Position.t),
    let p' := track_ticks cfg p prices in
    (Position.signal_type p' = Position.signal_type p
     /\ Position.entry_price p' = Position.entry_price p
     /\ Position.quantity p' = Position.quantity p
     /\ Position.stop_loss p' = Position.stop_loss p
     /\ Position.target_price p' = Position.target_price p)
    /\ Position.max_favorable_excursion p <= Position.max_favorable_excursion p'
    /\ Position.max_adverse_excursion p' <= Position.max_adverse_excursion p
    /\ (forall q, In q prices ->
          excursion p q <= Position.max_favorable_excursion p'
          /\ Position.max_adverse_excursion p' <= excursion p q)
    /\ match Position.signal_type p with
       | LONG =>
         Position.highest_price p <= Position.highest_price p'
         /\ (forall q, In q prices -> q <= Position.highest_price p')
         /\ Position.lowest_price p' = Position.lowest_price p
       | SHORT =>
         Position.highest_price p' = Position.highest_price p
         /\ (forall q, In q prices -> flt (Fin q) (Position.lowest_price p') = false)
       end
    /\ (forall earlier q, prices = earlier ++ [q] ->
          Position.current_price p' = q
          /\ Position.unrealized_pnl p'
             = match Position.signal_type p with
               | LONG => (q - Position.entry_price p) * inject_Z (Position.quantity p)
               | SHORT => (Position.entry_price p - q)
                          * inject_Z (Z.abs (Position.quantity p))
               end).
Proof.
  intros cfg prices. induction prices as [|q0 rest IH]; intros p p'.
  - unfold p', track_ticks. cbn [fold_left].
    split; [repeat split|]. split; [apply Qle_refl|]. split; [apply Qle_refl|].
    split; [intros q []|]. split.
    + destruct (Position.signal_type p); repeat split; try apply Qle_refl; intros q [].
    + intros earlier q E. destruct earlier; discriminate.
  - unfold p'. rewrite track_ticks_cons.
    destruct (track_position_fields cfg p q0)
      as (Es & Ee & Eq & El & Et & Ec & Ef & Ea & Eh & Elo & Eu).
    set (p1 := track_position cfg p q0) in *.
    destruct (IH p1) as ((Is & Ie & Iq & Il & It) & If & Ia & Ix & Ih & Ilast).
    set (p2 := track_ticks cfg p1 rest) in *.
    assert (Ex : forall q, excursion p1 q = excursion p q)
      by (intro q; unfold excursion; rewrite Es, Ee; reflexivity).
    pose proof (py_max2_ge_l (Position.max_favorable_excursion p) (excursion p q0)) as M1.
    pose proof (py_max2_ge_r (Position.max_favorable_excursion p) (excursion p q0)) as M2.
    pose proof (py_min2_le_l (Position.max_adverse_excursion p) (excursion p q0)) as M3.
    pose proof (py_min2_le_r (Position.max_adverse_excursion p) (excursion p q0)) as M4.
    rewrite <- Ef in M1, M2. rewrite <- Ea in M3, M4.
    split; [repeat split; congruence|].
    split; [lra|]. split; [lra|]. split; [|split].
    + intros q [<- | I]; [split; lra|]. rewrite <- Ex. apply Ix, I.
    + rewrite Es in Ih. destruct (Position.signal_type p).
      * destruct Ih as (H1 & H2 & H3).
        pose proof (py_max2_ge_l (Position.highest_price p) q0) as N1.
        pose proof (py_max2_ge_r (Position.highest_price p) q0) as N2.
        rewrite <- Eh in N1, N2.
        split; [lra|]. split; [|congruence].
        intros q [<- | I]; [lra | apply H2, I].
      * destruct Ih as (H1 & H2). split; [congruence|].
        intros q [<- | I]; [|apply H2, I].
        assert (B0 : flt (Fin q0) (Position.lowest_price p1) = false).
        { rewrite Elo. destruct (flt (Fin q0) (Position.lowest_price p)) eqn:F; [|exact F].
          cbn [flt]. apply Qlt_bool_false_iff, Qle_refl. }
        exact (lowest_bound_kept cfg q0 rest p1 B0).
    + intros earlier q E. destruct earlier as [|e0 earlier]; cbn [app] in E.
      * injection E as E0 Er. subst q rest. unfold p2, track_ticks. cbn [fold_left].
        split; [exact Ec | exact Eu].
      * injection E as <- E.
        destruct (Ilast earlier q E) as (L1 & L2).
        split; [exact L1|]. rewrite L2, Es, Ee, Eq. reflexivity.
Qed.

Lemma fin_max (a b : Q) : (if Qlt_bool a b then Fin b else Fin a) = Fin (py_max2 a b).
Proof. unfold py_max2. destruct (Qlt_bool a b); reflexivity. Qed.

Lemma track_position_long_stop (cfg : Config.t) (p : Position.t) (q s : Q) :
  Position.signal_type p = LONG ->
  Config.enable_trailing_stops cfg = true ->
  Position.current_stop_loss p = Fin s ->
  Position.current_stop_loss (track_position cfg p q)
  = Fin (py_max2 s (py_max2 (Position.highest_price p) q
                    * (1 - Config.trailing_stop_pct cfg / 100))).
Proof.
  intros E T S. unfold track_position. rewrite T.
  set (p1 := Position.set_unrealized_pnl _ _).
  assert (Hs : Position.signal_type p1 = LONG)
    by (unfold p1; cbn [Position.signal_type Position.set_unrealized_pnl];
        rewrite update_price_extremes_side; exact E).
  assert (Hc : Position.current_stop_loss p1 = Fin s)
    by (unfold p1; cbn [Position.current_stop_loss Position.set_unrealized_pnl];
        rewrite update_price_extremes_stop; exact S).
  assert (Hh : Position.highest_price p1 = py_max2 (Position.highest_price p) q)
    by (unfold p1, Position.update_price_extremes; rewrite E; reflexivity).
  rewrite (update_trailing_stop_long cfg p1 q Hs). cbv zeta.
  rewrite Hc, Hh. cbn [flt]. apply fin_max.
Qed.

(** X23.  With trailing stops enabled and a trailing percentage between
    0 and 100, the stop of a long position tracked over any sequence of
    tick prices ends at or above where it started, and at or above every
    price seen less the trailing percentage. *)
Theorem trailing_stop_follows_high :
  forall (cfg : Config.t) (prices : list Q) (p : Position.t) (s0 : Q),
    Position.signal_type p = LONG ->
    Config.enable_trailing_stops cfg = true ->
    Position.current_stop_loss p = Fin s0 ->
    0 <= Config.trailing_stop_pct cfg -> Config.trailing_stop_pct cfg <= 100 ->
    exists s',
      Position.current_stop_loss (track_ticks cfg p prices) = Fin s'
      /\ s0 <= s'
      /\ forall q, In q prices -> q * (1 - Config.trailing_stop_pct cfg / 100) <= s'.
Proof.
  intros cfg prices. induction prices as [|q0 rest IH]; intros p s0 E T S P0 P1.
  - exists s0. split; [exact S|]. split; [apply Qle_refl | intros q []].
  - rewrite track_ticks_cons.
    pose proof (track_position_long_stop cfg p q0 s0 E T S) as S1.
    set (k := 1 - Config.trailing_stop_pct cfg / 100) in *.
    assert (K : 0 <= k).
    { unfold k.
      assert (Dv : Config.trailing_stop_pct cfg / 100
                   == Config.trailing_stop_pct cfg * (1 # 100)) by field.
      rewrite Dv. lra. }
    set (s1 := py_max2 s0 (py_max2 (Position.highest_price p) q0 * k)) in *.
    assert (E1 : Position.signal_type (track_position cfg p q0) = LONG)
      by (rewrite track_position_side; exact E).
    destruct (IH _ s1 E1 T S1 P0 P1) as (s' & Hs & L & B).
    exists s'. split; [exact Hs|].
    pose proof (py_max2_ge_l s0 (py_max2 (Position.highest_price p) q0 * k)) as A1.
    pose proof (py_max2_ge_r s0 (py_max2 (Position.highest_price p) q0 * k)) as A2.
    fold s1 in A1, A2.
    split; [lra|].
    intros q [<- | I]; [|apply B, I].
    assert (M : q0 * k <= py_max2 (Position.highest_price p) q0 * k)
      by (apply Qmult_le_compat_r; [apply py_max2_ge_r | exact K]).
    lra.
Qed.

Lemma trailing_stop_follows_high_witness :
  exists s',
    Position.current_stop_loss (track_ticks Config.default sample_position [104; 110; 106])
    = Fin s'
    /\ 90 <= s'
    /\ 110 * (1 - Config.trailing_stop_pct Config.default / 100) <= s'.
Proof.
  destruct (trailing_stop_follows_high Config.default [104; 110; 106] sample_position 90)
    as (s' & E & L & B); try reflexivity; try (vm_compute; discriminate).
  exists s'. split; [exact E|]. split; [exact L|].
  apply B. right. left. reflexivity.
Defined.

(** ** What a breakout flag means *)


(** ** Tracking inside the strategy *)

Lemma sset_keys_present {V : Type} (d : str_dict V) (k : string) (v : V) :
  smem d k = true -> PyDict.keys (sset d k v) = PyDict.keys d.
Proof.
  unfold smem, sset, PyDict.mem, PyDict.keys.
  induction d as [|[k0 v0] r IH]; cbn [PyDict.get PyDict.set map fst]; [discriminate|].
  destruct (String.eqb k0 k); cbn [map fst]; [reflexivity|].
  intro M. f_equal. exact (IH M).
Qed.

(** X25.  [_update_position_tracking] touches nothing but the position
    of the tick's symbol: a symbol without position leaves the strategy as
    it was; otherwise that position becomes the tracked one, the other
    positions, their order and the rest of the strategy stay as they
    were. *)
Theorem update_position_tracking_frame :
  forall (self : Strategy.t) (symbol : string) (q : LiveQuote.t),
    let after := _update_position_tracking self symbol q in
    after = with_positions self (positions after)
    /\ PyDict.keys (positions after) = PyDict.keys (positions self)
    /\ (forall other, other <> symbol ->
          sget (positions after) other = sget (positions self) other)
    /\ (sget (positions self) symbol = None -> after = self)
    /\ (forall p, sget (positions self) symbol = Some p ->
          sget (positions after) symbol
          = Some (track_position (strategy_config self) p (LiveQuote.ltp q))).
Proof.
  intros self symbol q after. unfold after, _update_position_tracking.
  destruct (sget (positions self) symbol) as [p|] eqn:G.
  - cbn [positions with_positions].
    split; [reflexivity|]. split.
    { apply sset_keys_present. rewrite smem_sget, G. reflexivity. }
    split; [intros other Ne; apply sget_sset_other; auto|].
    split; [discriminate|].
    intros p' [= <-]. apply sget_sset_same.
  - split; [destruct self; reflexivity|]. split; [reflexivity|].
    split; [reflexivity|]. split; [reflexivity | discriminate].
Qed.

(** ** Symbol conversion *)

Lemma sget_in {V : Type} (d : str_dict V) (k : string) (v : V) :
  sget d k = Some v -> In (k, v) d.
Proof.
  unfold sget. induction d as [|[k0 v0] r IH]; cbn [PyDict.get]; [discriminate|].
  destruct (String.eqb k0 k) eqn:E.
  - apply String.eqb_eq in E. intros [= <-]. left. congruence.
  - intro H. right. exact (IH H).
Qed.

Lemma symbol_table_round_trip :
  forallb (fun kv =>
             match sget Symbols._reverse_mappings (snd kv),
                   sget Symbols._symbol_mappings (fst kv) with
             | Some k, Some v =>
               String.eqb k (fst kv) && String.eqb v (snd kv)
               && String.eqb (snd kv) (String.append "NSE:" (String.append (fst kv) "-EQ"))
             | _, _ => false
             end) Symbols._symbol_mappings = true
  /\ forallb (fun vk =>
                match sget Symbols._symbol_mappings (snd vk) with
                | Some v => String.eqb v (fst vk)
                | None => false
                end) Symbols._reverse_mappings = true.
Proof. split; vm_compute; reflexivity. Qed.

(** X26.  Symbol conversion is a round trip on the supported symbols:
    a symbol validates exactly when it converts to a Fyers symbol; the
    Fyers symbol is "NSE:", the upper-cased symbol and "-EQ", and converts
    back to the upper-cased symbol; a display symbol obtained from a Fyers
    symbol converts to that Fyers symbol again; every symbol that
    [get_vp_symbols] lists validates, and [get_vp_fyers_symbols] lists
    their Fyers forms in the same order.  (The built-in [str.upper] is a
    parameter.) *)
Theorem symbol_conversion_round_trip :
  forall (upper : string -> string) (symbol : string),
    (Symbols.validate_vp_symbol upper symbol = true
     <-> exists fyers, Symbols.convert_to_fyers_format upper symbol = Some fyers)
    /\ (forall fyers,
          Symbols.convert_to_fyers_format upper symbol = Some fyers ->
          Symbols.convert_from_fyers_format fyers = Some (upper symbol)
          /\ fyers = String.append "NSE:" (String.append (upper symbol) "-EQ"))
    /\ (forall fyers display,
          Symbols.convert_from_fyers_format fyers = Some display ->
          upper display = display ->
          Symbols.convert_to_fyers_format upper display = Some fyers)
    /\ (forall listed, In listed Symbols.get_vp_symbols -> upper listed = listed ->
          Symbols.validate_vp_symbol upper listed = true)
    /\ Symbols.get_vp_fyers_symbols
       = map (fun listed => String.append "NSE:" (String.append listed "-EQ"))
             Symbols.get_vp_symbols.
Proof.
  intros upper symbol.
  destruct symbol_table_round_trip as [T1 T2].
  rewrite forallb_forall in T1, T2.
  split; [|split; [|split; [|split; [|vm_compute; reflexivity]]]]; cycle 3.
  - intros listed I U.
    unfold Symbols.get_vp_symbols, Symbols.get_all_symbols, PyDict.keys in I.
    apply in_map_iff in I. destruct I as ([k v] & <- & I). cbn [fst] in *.
    specialize (T1 _ I). cbn [fst snd] in T1.
    unfold Symbols.validate_vp_symbol, Symbols.validate_symbol. rewrite U, smem_sget.
    destruct (sget Symbols._reverse_mappings v); [|discriminate].
    destruct (sget Symbols._symbol_mappings k); [reflexivity | discriminate].
  - unfold Symbols.validate_vp_symbol, Symbols.validate_symbol,
      Symbols.convert_to_fyers_format, Symbols.get_fyers_symbol.
    rewrite smem_sget.
    destruct (sget Symbols._symbol_mappings (upper symbol)) as [f|].
    + split; [intros _; exists f; reflexivity | reflexivity].
    + split; [discriminate | intros [f H]; discriminate].
  - intros fyers H.
    unfold Symbols.convert_to_fyers_format, Symbols.get_fyers_symbol in H.
    apply sget_in in H. specialize (T1 _ H). cbn [fst snd] in T1.
    unfold Symbols.convert_from_fyers_format, Symbols.get_display_symbol.
    destruct (sget Symbols._reverse_mappings fyers) as [k|]; [|discriminate].
    destruct (sget Symbols._symbol_mappings (upper symbol)) as [v|]; [|discriminate].
    apply andb_prop in T1. destruct T1 as [T1 F].
    apply andb_prop in T1. destruct T1 as [K _].
    apply String.eqb_eq in K, F. split; congruence.
  - intros fyers display H U.
    unfold Symbols.convert_from_fyers_format, Symbols.get_display_symbol in H.
    apply sget_in in H. specialize (T2 _ H). cbn [fst snd] in T2.
    unfold Symbols.convert_to_fyers_format, Symbols.get_fyers_symbol. rewrite U.
    destruct (sget Symbols._symbol_mappings display) as [v|]; [|discriminate].
    apply String.eqb_eq in T2. congruence.
Qed.
